(** * Landmark classification rules of the live-video demos

    A shallow embedding of the two rule evaluators of the repository:

    - [hand-pose-detection/demos/live_video/src/index.js]: the geometry
      predicates, the per-hand feature extractors and [detectGesture];
    - [face-landmarks-detection/demos/live_video/src/index.js]:
      [getIrisCenter] and [detectGazeDirection].

    JavaScript Numbers are IEEE 754 binary64 values, so they are embedded
    as Rocq's primitive [float]s: [+], [-], [*], [/], [Math.sqrt],
    [Math.abs], [<] and [===] are the same correctly rounded binary64
    operations in both languages.  The functions whose values the
    language standard leaves to the engine ([Math.acos], [Math.atan2],
    [**]) are parameters of the development, constrained by the special
    cases the standard fixes.  Reading a property of [undefined] raises
    a [TypeError]; this is the only fault the embedded code can raise and
    it is modelled by the [Throw] outcome of the [result] monad. *)

From Stdlib Require Import String List ZArith Lia Bool Uint63 Floats.
Import ListNotations.

#[local] Set Warnings "-inexact-float".

(** ** Numbers *)

Module Num.

Local Open Scope float_scope.

(** [a > b] on Numbers. *)
Definition gtb (a b : float) : bool := b <? a.

(** Reading a Number from a property that may hold [undefined]:
    [undefined] becomes [NaN] as soon as it enters arithmetic. *)
Definition of_optional (v : option float) : float :=
  match v with Some f => f | None => nan end.

(** [Math.max] and [Math.min] of two arguments: [NaN] if either
    argument is [NaN]; [+0] is larger than [-0]. *)
Definition Math_max (a b : float) : float :=
  if is_nan a || is_nan b then nan
  else if a <? b then b
  else if b <? a then a
  else if get_sign a then b else a.

Definition Math_min (a b : float) : float :=
  if is_nan a || is_nan b then nan
  else if a <? b then a
  else if b <? a then b
  else if get_sign a then a else b.

Definition Math_PI : float := 3.141592653589793.

(** [irisPoints.length] and the like, as a Number. *)
Definition of_nat (n : nat) : float := of_uint63 (Uint63.of_Z (Z.of_nat n)).

(** *** Special values *)

(** Zero of either sign. *)
Definition SFzero (s : spec_float) : Prop :=
  match s with S754_zero _ => True | _ => False end.

(** Zero of either sign, or NaN: what a zero-length vector turns
    every quantity derived from it into. *)
Definition SFzn (s : spec_float) : Prop :=
  match s with S754_zero _ | S754_nan => True | _ => False end.

Definition is_zn (f : float) : Prop := SFzn (Prim2SF f).

End Num.

(** ** Outcomes of a call *)

(** A call either returns a value or raises the [TypeError] of reading
    a property of [undefined]. *)
Inductive result (A : Type) : Type :=
| Ret (a : A)
| Throw.

Arguments Ret {A} a.
Arguments Throw {A}.

Definition bind {A B : Type} (m : result A) (k : A -> result B) : result B :=
  match m with
  | Ret a => k a
  | Throw => Throw
  end.

Notation "v <- m ;; k" := (bind m (fun v => k))
  (at level 61, m at next level, right associativity).

(** [a && b] and [a || b] on boolean operands: [b] is evaluated, and
    may raise, only when [a] does not decide the result. *)
Definition and_then (a b : result bool) : result bool :=
  v <- a ;; if v then b else Ret false.

Definition or_else (a b : result bool) : result bool :=
  v <- a ;; if v then Ret true else b.

Notation "a &&& b" := (and_then a b) (at level 40, left associativity).
Notation "a ||| b" := (or_else a b) (at level 50, left associativity).

(** Does a call return [true]? *)
Definition holds (r : result bool) : bool :=
  match r with Ret true => true | _ => false end.

(** ** Keypoints and landmark sets *)

(** A keypoint of the detection models: [x] and [y] are always
    present, [z] only in the 3D sets. *)
Record Keypoint : Type := { x : float; y : float; z : option float }.

(** A landmark set is a JavaScript array of keypoints. *)
Definition Landmarks : Type := list Keypoint.

(** [a[i]]: the element, or [undefined] past the end. *)
Definition idx (a : Landmarks) (i : nat) : option Keypoint := nth_error a i.
Arguments idx : simpl never.

Notation "a !! i" := (idx a i) (at level 1, left associativity, i at level 0).

(** [p.x], [p.y], [p.z] where [p] may be [undefined]. *)
Definition prop {A : Type} (f : Keypoint -> A) (p : option Keypoint) : result A :=
  match p with
  | Some k => Ret (f k)
  | None => Throw
  end.

Definition dot_x : option Keypoint -> result float := prop x.
Definition dot_y : option Keypoint -> result float := prop y.
Definition dot_z : option Keypoint -> result float :=
  prop (fun k => Num.of_optional (z k)).

(** The host's numeric functions that ECMAScript leaves
    implementation-approximated: [Math.acos], [Math.atan2] and the
    exponentiation operator, of which the code only uses [x ** 2].
    The standard fixes their special cases; the rules below rely on
    [Math.acos(NaN)] being [NaN], on [(+-0) ** 2] being [+0] and on
    [NaN ** 2] being [NaN]. *)
Class JSMath : Type := {
  Math_acos : float -> float;
  Math_atan2 : float -> float -> float;
  pow2 : float -> float;
  Math_acos_NaN : Math_acos nan = nan;
  pow2_zero : forall a : float, (a =? 0)%float = true -> pow2 a = 0%float;
  pow2_NaN : pow2 nan = nan
}.

(** ** hand-pose-detection/demos/live_video/src/index.js *)

Module HandPose.

Local Open Scope float_scope.
Import Num.

(** A gesture label; every label of the file is a non-empty string
    literal, so [if (g)] tests exactly whether a label was returned. *)
Definition label : Type := string.

(** One detected hand, as the detector delivers it. *)
Record Hand : Type := {
  keypoints : option Landmarks;
  keypoints3D : option Landmarks;
  handedness : string
}.

Section WithHostMath.

Context {M : JSMath}.

Definition arePointsColinear_tolerance : float := 8e-2.

(** Are three points nearly on one line (3D)? *)
Definition arePointsColinear (p1 p2 p3 : option Keypoint) (tolerance : float)
  : result bool :=
  v1_0 <- (a <- dot_x p2 ;; b <- dot_x p1 ;; Ret (a - b)) ;;
  v1_1 <- (a <- dot_y p2 ;; b <- dot_y p1 ;; Ret (a - b)) ;;
  v1_2 <- (a <- dot_z p2 ;; b <- dot_z p1 ;; Ret (a - b)) ;;
  v2_0 <- (a <- dot_x p3 ;; b <- dot_x p1 ;; Ret (a - b)) ;;
  v2_1 <- (a <- dot_y p3 ;; b <- dot_y p1 ;; Ret (a - b)) ;;
  v2_2 <- (a <- dot_z p3 ;; b <- dot_z p1 ;; Ret (a - b)) ;;
  let cross_0 := v1_1 * v2_2 - v1_2 * v2_1 in
  let cross_1 := v1_2 * v2_0 - v1_0 * v2_2 in
  let cross_2 := v1_0 * v2_1 - v1_1 * v2_0 in
  let crossNorm := sqrt (pow2 cross_0 + pow2 cross_1 + pow2 cross_2) in
  let v1Norm := sqrt (pow2 v1_0 + pow2 v1_1 + pow2 v1_2) in
  let v2Norm := sqrt (pow2 v2_0 + pow2 v2_1 + pow2 v2_2) in
  if v1Norm * v2Norm =? 0 then Ret false
  else
    let colinearMeasure := crossNorm / (v1Norm * v2Norm) in
    Ret (colinearMeasure <? tolerance).

Definition arePointsTriangle_tolerance : float := 15e-2.

(** Do three points form a bend (3D)? *)
Definition arePointsTriangle (p1 p2 p3 : option Keypoint) (tolerance : float)
  : result bool :=
  v1_0 <- (a <- dot_x p2 ;; b <- dot_x p1 ;; Ret (a - b)) ;;
  v1_1 <- (a <- dot_y p2 ;; b <- dot_y p1 ;; Ret (a - b)) ;;
  v1_2 <- (a <- dot_z p2 ;; b <- dot_z p1 ;; Ret (a - b)) ;;
  v2_0 <- (a <- dot_x p3 ;; b <- dot_x p1 ;; Ret (a - b)) ;;
  v2_1 <- (a <- dot_y p3 ;; b <- dot_y p1 ;; Ret (a - b)) ;;
  v2_2 <- (a <- dot_z p3 ;; b <- dot_z p1 ;; Ret (a - b)) ;;
  let cross_0 := v1_1 * v2_2 - v1_2 * v2_1 in
  let cross_1 := v1_2 * v2_0 - v1_0 * v2_2 in
  let cross_2 := v1_0 * v2_1 - v1_1 * v2_0 in
  let crossNorm := sqrt (pow2 cross_0 + pow2 cross_1 + pow2 cross_2) in
  let v1Norm := sqrt (pow2 v1_0 + pow2 v1_1 + pow2 v1_2) in
  let v2Norm := sqrt (pow2 v2_0 + pow2 v2_1 + pow2 v2_2) in
  if v1Norm * v2Norm =? 0 then Ret false
  else
    let colinearMeasure := crossNorm / (v1Norm * v2Norm) in
    Ret (gtb colinearMeasure tolerance).

(** The middle finger alone held up. *)
Definition checkMiddleFinger (landmarks : Landmarks) : result (option label) :=
  let indexTip := landmarks !! 8 in
  let indexPip := landmarks !! 6 in
  let middleTip := landmarks !! 12 in
  let middlePip := landmarks !! 10 in
  let ringTip := landmarks !! 16 in
  let ringPip := landmarks !! 14 in
  let pinkyTip := landmarks !! 20 in
  let pinkyPip := landmarks !! 18 in
  c <- (a <- dot_y middleTip ;; b <- dot_y middlePip ;; Ret (a <? b))
       &&& (a <- dot_y indexTip ;; b <- dot_y indexPip ;; Ret (gtb a b))
       &&& (a <- dot_y ringTip ;; b <- dot_y ringPip ;; Ret (gtb a b))
       &&& (a <- dot_y pinkyTip ;; b <- dot_y pinkyPip ;; Ret (gtb a b)) ;;
  if c then Ret (Some "Middle Finger"%string) else Ret None.

(** Loose pointing with thumb or index; not called by
    [detectGesture]. *)
Definition checkFingerPointing (landmarks : Landmarks) : result (option label) :=
  let thumbTip := landmarks !! 4 in
  let thumbIp := landmarks !! 3 in
  let thumbMcp := landmarks !! 2 in
  let indexTip := landmarks !! 8 in
  let indexDip := landmarks !! 7 in
  let indexPip := landmarks !! 6 in
  let middleTip := landmarks !! 12 in
  let middleDip := landmarks !! 11 in
  let middlePip := landmarks !! 10 in
  let ringTip := landmarks !! 16 in
  let ringDip := landmarks !! 15 in
  let ringPip := landmarks !! 14 in
  middleRingTriangle <-
    arePointsTriangle middleTip middleDip middlePip arePointsTriangle_tolerance
    &&& arePointsTriangle ringTip ringDip ringPip arePointsTriangle_tolerance ;;
  thumbIndexColinear <-
    arePointsColinear thumbTip thumbIp thumbMcp arePointsColinear_tolerance
    ||| arePointsColinear indexTip indexDip indexPip arePointsColinear_tolerance ;;
  if middleRingTriangle && thumbIndexColinear
  then Ret (Some "Pointing"%string) else Ret None.

(** The helper nested in [checkPalmUpward]. *)
Definition angleWithHorizon (p1 p2 : option Keypoint) (thresh : float)
  : result bool :=
  dx <- (a <- dot_x p2 ;; b <- dot_x p1 ;; Ret (a - b)) ;;
  dy <- (a <- dot_y p2 ;; b <- dot_y p1 ;; Ret (a - b)) ;;
  let angleDeg := abs (Math_atan2 dy dx * 180 / Math_PI) in
  Ret ((angleDeg <? thresh) || gtb angleDeg (180 - thresh)).

(** Palm turned upward; not called by [detectGesture]. *)
Definition checkPalmUpward (landmarks : Landmarks) : result (option label) :=
  let wrist := landmarks !! 0 in
  let indexMcp := landmarks !! 5 in
  let middleMcp := landmarks !! 9 in
  let pinkyMcp := landmarks !! 17 in
  let indexTip := landmarks !! 8 in
  let indexDip := landmarks !! 7 in
  let indexPip := landmarks !! 6 in
  let middleTip := landmarks !! 12 in
  let middleDip := landmarks !! 11 in
  let middlePip := landmarks !! 10 in
  c <- angleWithHorizon wrist indexMcp 70
       &&& angleWithHorizon wrist middleMcp 70
       &&& angleWithHorizon wrist pinkyMcp 70
       &&& arePointsColinear indexTip indexDip indexPip 0.3
       &&& arePointsColinear middleTip middleDip middlePip 0.3 ;;
  if c then Ret (Some "Palm Upward"%string) else Ret None.

(** Are two segments parallel (2D)? *)
Definition areLinesParallel2D (p1 p2 q1 q2 : option Keypoint)
           (toleranceDeg : float) : result bool :=
  v1_0 <- (a <- dot_x p2 ;; b <- dot_x p1 ;; Ret (a - b)) ;;
  v1_1 <- (a <- dot_y p2 ;; b <- dot_y p1 ;; Ret (a - b)) ;;
  v2_0 <- (a <- dot_x q2 ;; b <- dot_x q1 ;; Ret (a - b)) ;;
  v2_1 <- (a <- dot_y q2 ;; b <- dot_y q1 ;; Ret (a - b)) ;;
  let dot := v1_0 * v2_0 + v1_1 * v2_1 in
  let norm1 := sqrt (pow2 v1_0 + pow2 v1_1) in
  let norm2 := sqrt (pow2 v2_0 + pow2 v2_1) in
  if norm1 * norm2 =? 0 then Ret false
  else
    let cosTheta := dot / (norm1 * norm2) in
    let angleDeg :=
      Math_acos (Math_min 1 (Math_max (-1) cosTheta)) * 180 / Math_PI in
    Ret ((angleDeg <? toleranceDeg) || (abs (180 - angleDeg) <? toleranceDeg)).

Definition arePointsColinear2D_tolerance : float := 0.1.

(** Are three points nearly on one line (2D)? *)
Definition arePointsColinear2D (p1 p2 p3 : option Keypoint) (tolerance : float)
  : result bool :=
  v1_0 <- (a <- dot_x p2 ;; b <- dot_x p1 ;; Ret (a - b)) ;;
  v1_1 <- (a <- dot_y p2 ;; b <- dot_y p1 ;; Ret (a - b)) ;;
  v2_0 <- (a <- dot_x p3 ;; b <- dot_x p1 ;; Ret (a - b)) ;;
  v2_1 <- (a <- dot_y p3 ;; b <- dot_y p1 ;; Ret (a - b)) ;;
  let cross := v1_0 * v2_1 - v1_1 * v2_0 in
  let area := abs cross in
  let v1Len := sqrt (pow2 v1_0 + pow2 v1_1) in
  let v2Len := sqrt (pow2 v2_0 + pow2 v2_1) in
  if v1Len * v2Len =? 0 then Ret false
  else
    let colinearMeasure := area / (v1Len * v2Len) in
    Ret (colinearMeasure <? tolerance).

Definition isFingerStraight_tolerance : float := 0.15.

(** Is a finger straight: MCP, PIP, TIP on one line and DIP on it
    too. *)
Definition isFingerStraight (hand : Landmarks) (mcpIdx pipIdx dipIdx tipIdx : nat)
           (tolerance : float) : result bool :=
  let mcp := hand !! mcpIdx in
  let pip := hand !! pipIdx in
  let dip := hand !! dipIdx in
  let tip := hand !! tipIdx in
  arePointsColinear2D mcp pip tip tolerance
  &&& arePointsColinear2D pip dip tip tolerance.

(** Is a hand open: at least 3 straight fingers. *)
Definition isHandOpen (hand : option Landmarks) : result bool :=
  match hand with
  | None => Ret false
  | Some hand =>
      let straightCount := 0%nat in
      b <- isFingerStraight hand 5 6 7 8 isFingerStraight_tolerance ;;
      let straightCount := if b then S straightCount else straightCount in
      b <- isFingerStraight hand 9 10 11 12 isFingerStraight_tolerance ;;
      let straightCount := if b then S straightCount else straightCount in
      b <- isFingerStraight hand 13 14 15 16 isFingerStraight_tolerance ;;
      let straightCount := if b then S straightCount else straightCount in
      b <- isFingerStraight hand 17 18 19 20 isFingerStraight_tolerance ;;
      let straightCount := if b then S straightCount else straightCount in
      Ret (3 <=? straightCount)%nat
  end.

Definition checkOpenPalm (leftHand rightHand : option Landmarks)
  : result (option label) :=
  match leftHand, rightHand with
  | Some leftLm, Some rightLm =>
      notOpen <- (b <- isHandOpen leftHand ;; Ret (negb b))
                 ||| (b <- isHandOpen rightHand ;; Ret (negb b)) ;;
      if notOpen then Ret None
      else
        let leftWrist := leftLm !! 0 in
        let rightWrist := rightLm !! 0 in
        let leftMiddle := leftLm !! 12 in
        let rightMiddle := rightLm !! 12 in
        parallel <- areLinesParallel2D leftWrist leftMiddle rightWrist rightMiddle 20 ;;
        if parallel then Ret (Some "Open Palm"%string) else Ret None
  | _, _ => Ret None
  end.

Definition distance2D (p1 p2 : option Keypoint) : result float :=
  dx <- (a <- dot_x p1 ;; b <- dot_x p2 ;; Ret (a - b)) ;;
  dy <- (a <- dot_y p1 ;; b <- dot_y p2 ;; Ret (a - b)) ;;
  Ret (sqrt (dx * dx + dy * dy)).

(** [joints[i]] in an array of joints that may themselves be
    [undefined]. *)
Definition elem (joints : list (option Keypoint)) (i : nat) : option Keypoint :=
  nth i joints None.

Definition checkFingerInterlocked (leftHand rightHand : option Landmarks)
  : result (option label) :=
  match leftHand, rightHand with
  | Some leftHand, Some rightHand =>
      let jointIdx := [3; 6; 10; 14; 18]%nat in
      let leftJoints := map (fun i => leftHand !! i) jointIdx in
      let rightJoints := map (fun i => rightHand !! i) jointIdx in
      let threshold := 40 in
      interlockedCount <-
        fold_left
          (fun acc i =>
             interlockedCount <- acc ;;
             let lf := elem leftJoints i in
             let rf := elem rightJoints i in
             d <- distance2D lf rf ;;
             Ret (if d <? threshold then S interlockedCount else interlockedCount))
          (seq 0 (length leftJoints)) (Ret 0%nat) ;;
      if (3 <=? interlockedCount)%nat
      then Ret (Some "Finger Interlocked"%string) else Ret None
  | _, _ => Ret None
  end.

(** The [for (const hand of hands)] loop of [detectGesture]. *)
Fixpoint detectGesture_loop (hands : list Hand) : result (option label) :=
  match hands with
  | [] => Ret None
  | hand :: rest =>
      match keypoints hand with
      | None => detectGesture_loop rest
      | Some landmarks =>
          g <- checkMiddleFinger landmarks ;;
          match g with
          | Some _ => Ret g
          | None => detectGesture_loop rest
          end
      end
  end.

(** The entry point: two-hand rules first, then one-hand rules for
    each hand.  The calls to [checkFingerPointing] and
    [checkPalmUpward] are commented out in the loop. *)
Definition detectGesture (hands : option (list Hand)) : result (option label) :=
  match hands with
  | None => Ret None
  | Some hands =>
      if (length hands =? 0)%nat then Ret None
      else
        g <- (if (2 <=? length hands)%nat then
                let left_ := find (fun h => handedness h =? "Left")%string hands in
                let right_ := find (fun h => handedness h =? "Right")%string hands in
                match left_, right_ with
                | Some left_, Some right_ =>
                    let leftLm3D := keypoints3D left_ in
                    let rightLm3D := keypoints3D right_ in
                    let leftLm := keypoints left_ in
                    let rightLm := keypoints right_ in
                    match leftLm, rightLm with
                    | Some _, Some _ =>
                        g <- checkFingerInterlocked leftLm rightLm ;;
                        match g with
                        | Some _ => Ret g
                        | None => checkOpenPalm leftLm rightLm
                        end
                    | _, _ => Ret None
                    end
                | _, _ => Ret None
                end
              else Ret None) ;;
        match g with
        | Some _ => Ret g
        | None => detectGesture_loop hands
        end
  end.

End WithHostMath.

End HandPose.

(** ** face-landmarks-detection/demos/live_video/src/index.js *)

Module FaceLandmarks.

Local Open Scope float_scope.
Import Num.

Record Face : Type := { keypoints : Landmarks }.

Definition getIrisCenter (irisPoints : list (option Keypoint)) : result Keypoint :=
  sums <- fold_left
            (fun acc p =>
               s <- acc ;;
               px <- dot_x p ;;
               py <- dot_y p ;;
               Ret (fst s + px, snd s + py))
            irisPoints (Ret (0, 0)) ;;
  let sumX := fst sums in
  let sumY := snd sums in
  Ret {| x := sumX / of_nat (length irisPoints);
         y := sumY / of_nat (length irisPoints);
         z := None |}.

(** The boundary object built for each eye. *)
Record Eye : Type := {
  eye_left : option Keypoint;
  eye_right : option Keypoint;
  eye_top : option Keypoint;
  eye_bottom : option Keypoint;
  eye_pupil : Keypoint;
  eye_center : option Keypoint
}.

(** Binary arithmetic on operands whose evaluation may raise. *)
Definition lift2 (f : float -> float -> float) (a b : result float) : result float :=
  va <- a ;; vb <- b ;; Ret (f va vb).

Definition detectGazeDirection (face : Face) : result string :=
  let kps := keypoints face in
  let leftIris := [kps !! 468; kps !! 469; kps !! 470; kps !! 471; kps !! 472] in
  leftPupil <- getIrisCenter leftIris ;;
  let rightIris := [kps !! 473; kps !! 474; kps !! 475; kps !! 476; kps !! 477] in
  rightPupil <- getIrisCenter rightIris ;;
  let leftEye := {| eye_left := kps !! 33; eye_right := kps !! 133;
                    eye_top := kps !! 159; eye_bottom := kps !! 145;
                    eye_pupil := leftPupil; eye_center := kps !! 468 |} in
  let rightEye := {| eye_left := kps !! 362; eye_right := kps !! 263;
                     eye_top := kps !! 386; eye_bottom := kps !! 374;
                     eye_pupil := rightPupil; eye_center := kps !! 473 |} in
  relX <- lift2 div
            (lift2 add
               (lift2 div
                  (lift2 sub (Ret (x (eye_pupil leftEye))) (dot_x (eye_left leftEye)))
                  (lift2 sub (dot_x (eye_right leftEye)) (dot_x (eye_left leftEye))))
               (lift2 div
                  (lift2 sub (Ret (x (eye_pupil rightEye))) (dot_x (eye_left rightEye)))
                  (lift2 sub (dot_x (eye_right rightEye)) (dot_x (eye_left rightEye)))))
            (Ret 2) ;;
  relY <- lift2 div
            (lift2 add
               (lift2 div
                  (lift2 sub (Ret (y (eye_pupil leftEye))) (dot_y (eye_top leftEye)))
                  (lift2 sub (dot_y (eye_bottom leftEye)) (dot_y (eye_top leftEye))))
               (lift2 div
                  (lift2 sub (Ret (y (eye_pupil rightEye))) (dot_y (eye_top rightEye)))
                  (lift2 sub (dot_y (eye_bottom rightEye)) (dot_y (eye_top rightEye)))))
            (Ret 2) ;;
  let gaze := "CENTER"%string in
  let gaze :=
    if relX <? 0.35 then "RIGHT"%string
    else if gtb relX 0.65 then "LEFT"%string
    else if (relY <? 0.3) && gtb relY 0 then "UP"%string
    else if relY <? 0 then "DOWN"%string
    else gaze in
  Ret gaze.

End FaceLandmarks.

(** ** A host to run the rules on *)

(** An instance of the host functions.  The arc cosine is accurate to
    about [1e-4] rad: the polynomial of Abramowitz and Stegun (4.4.45)
    on [0, 1], reflected to the negative side; outside [-1, 1] and at
    [NaN] the square root already yields [NaN].  [x ** 2] is one
    rounded multiplication, as in the engines' [pow], which returns
    [x * x] when the exponent is 2. *)
Module RefHost.

Local Open Scope float_scope.
Import Num.

Definition acos_poly (a : float) : float :=
  sqrt (1 - a)
  * (1.5707288 + a * (-0.2121144 + a * (0.0742610 + a * -0.0187293))).

Definition acos (a : float) : float :=
  if a <? 0 then Math_PI - acos_poly (- a) else acos_poly a.

Definition atan2 (dy dx : float) : float :=
  let r := sqrt (dx * dx + dy * dy) in
  if r =? 0 then 0
  else if dy <? 0 then - acos (dx / r) else acos (dx / r).

Definition square (a : float) : float := a * a.

Definition host : JSMath.
Proof.
  refine {| Math_acos := acos; Math_atan2 := atan2; pow2 := square;
            Math_acos_NaN := eq_refl; pow2_zero := _; pow2_NaN := eq_refl |}.
  intros a Ha. apply Prim2SF_inj. unfold square.
  rewrite mul_spec. rewrite eqb_spec in Ha.
  change (Prim2SF 0) with (S754_zero false) in *.
  destruct (Prim2SF a) as [s|s| |s m e]; try destruct s; try discriminate Ha;
    reflexivity.
Defined.

End RefHost.

(** ** What the specification says, in its own words *)

Module Spec.

Local Open Scope float_scope.
Import Num HandPose.

Definition origin : Keypoint := {| x := 0; y := 0; z := None |}.

(** The [i]-th landmark of a complete landmark set. *)
Definition pt (a : Landmarks) (i : nat) : Keypoint := nth i a origin.
Arguments pt : simpl never.

Section Rules.

Context {M : JSMath}.

(** *** Middle Finger *)

(** "tip above pip in image coordinates": a smaller [y]. *)
Definition tip_above_pip (lm : Landmarks) (tip pip : nat) : bool :=
  y (pt lm tip) <? y (pt lm pip).

(** "below (y greater than) their respective PIP joints". *)
Definition tip_below_pip (lm : Landmarks) (tip pip : nat) : bool :=
  y (pt lm pip) <? y (pt lm tip).

Definition middle_finger_shape (lm : Landmarks) : bool :=
  tip_above_pip lm 12 10
  && tip_below_pip lm 8 6 && tip_below_pip lm 16 14 && tip_below_pip lm 20 18.

Definition thumb_joints : list nat := [1; 2; 3; 4]%nat.

(** *** Open Palm *)

(** The (mcp, pip, dip, tip) indices of index, middle, ring, pinky. *)
Definition tested_fingers : list (nat * nat * nat * nat) :=
  [(5, 6, 7, 8); (9, 10, 11, 12); (13, 14, 15, 16); (17, 18, 19, 20)]%nat.

Definition finger_straight (lm : Landmarks) (f : nat * nat * nat * nat) : bool :=
  let '(mcp, pip, dip, tip) := f in
  holds (isFingerStraight lm mcp pip dip tip isFingerStraight_tolerance).

(** How many of the four tested fingers are straight. *)
Definition straight_fingers (lm : Landmarks) : nat :=
  List.length (filter (finger_straight lm) tested_fingers).

(** *** Finger Interlocked *)

Definition interlock_joints : list nat := [3; 6; 10; 14; 18]%nat.

(** Joint [i] of the two hands is within 40 pixels. *)
Definition joints_within (l r : Landmarks) (i : nat) : bool :=
  holds (d <- distance2D l !! i r !! i ;; Ret (d <? 40)).

Definition close_joint_pairs (l r : Landmarks) : nat :=
  List.length (filter (joints_within l r) interlock_joints).

(** Joint [i] of the two hands is 40 pixels or more apart. *)
Definition joints_apart (l r : Landmarks) (i : nat) : bool :=
  holds (d <- distance2D l !! i r !! i ;; Ret (40 <=? d)).

(** *** The decision order of the gesture evaluator *)

(** The first label that fires, scanning the rules in order; a
    rule that raises ends the scan. *)
Fixpoint first_label (rules : list (result (option label)))
  : result (option label) :=
  match rules with
  | [] => Ret None
  | r :: rest =>
      g <- r ;;
      match g with
      | Some _ => Ret g
      | None => first_label rest
      end
  end.

(** The labels of the rules in the active decision order. *)
Definition active_labels : list label :=
  ["Finger Interlocked"; "Open Palm"; "Middle Finger"]%string.

(** The hands phase 1 looks at: with two hands or more, the first
    hand tagged [Left] and the first tagged [Right], when both
    carry 2D keypoints. *)
Definition two_hand_pair (hands : list Hand) : option (Landmarks * Landmarks) :=
  if (2 <=? List.length hands)%nat then
    match find (fun h => handedness h =? "Left")%string hands,
          find (fun h => handedness h =? "Right")%string hands with
    | Some l, Some r =>
        match keypoints l, keypoints r with
        | Some a, Some b => Some (a, b)
        | _, _ => None
        end
    | _, _ => None
    end
  else None.

Definition wrists_parallel (l r : Landmarks) : bool :=
  holds (areLinesParallel2D l !! 0 l !! 12 r !! 0 r !! 12 20).

Definition phase1 (hands : list Hand) : list (result (option label)) :=
  match two_hand_pair hands with
  | Some (l, r) =>
      [checkFingerInterlocked (Some l) (Some r); checkOpenPalm (Some l) (Some r)]
  | None => []
  end.

Definition phase2 (hands : list Hand) : list (result (option label)) :=
  flat_map (fun h => match keypoints h with
                     | Some lm => [checkMiddleFinger lm]
                     | None => []
                     end) hands.

Definition spec_detectGesture (hands : list Hand) : result (option label) :=
  first_label (phase1 hands ++ phase2 hands).

(** *** Degenerate geometry *)

(** The length of the vector from [p] to [q], in 3D and in 2D. *)
Definition length3 (p q : Keypoint) : float :=
  sqrt (pow2 (x q - x p) + pow2 (y q - y p)
        + pow2 (of_optional (z q) - of_optional (z p))).

Definition length2 (p q : Keypoint) : float :=
  sqrt (pow2 (x q - x p) + pow2 (y q - y p)).

(** *** Gaze *)

(** The mean of a five-point iris cluster, one coordinate. *)
Definition mean5 (f : Keypoint -> float) (a : Landmarks) (i : nat) : float :=
  (0 + f (pt a i) + f (pt a (i + 1)) + f (pt a (i + 2))
   + f (pt a (i + 3)) + f (pt a (i + 4))) / 5.

(** The position of the pupil between two boundary points. *)
Definition rel (pupil lo hi : float) : float := (pupil - lo) / (hi - lo).

Definition relX (kps : Landmarks) : float :=
  (rel (mean5 x kps 468) (x (pt kps 33)) (x (pt kps 133))
   + rel (mean5 x kps 473) (x (pt kps 362)) (x (pt kps 263))) / 2.

Definition relY (kps : Landmarks) : float :=
  (rel (mean5 y kps 468) (y (pt kps 159)) (y (pt kps 145))
   + rel (mean5 y kps 473) (y (pt kps 386)) (y (pt kps 374))) / 2.

(** "evaluated in this exact order (first match wins)". *)
Definition spec_gaze (rx ry : float) : string :=
  if rx <? 0.35 then "RIGHT"
  else if 0.65 <? rx then "LEFT"
  else if (0 <? ry) && (ry <? 0.3) then "UP"
  else if ry <? 0 then "DOWN"
  else "CENTER".

End Rules.

End Spec.

(** ** Sample inputs *)

Module Samples.

Local Open Scope float_scope.
Import HandPose.

Definition kp (a b : float) : Keypoint := {| x := a; y := b; z := None |}.

Definition kp3 (a b c : float) : Keypoint := {| x := a; y := b; z := Some c |}.

(** A hand held up with straight fingers, moved by [(dx, dy)]:
    wrist, then thumb, index, middle, ring and pinky from the palm
    to the tip. *)
Definition open_hand (dx dy : float) : Landmarks :=
  map (fun p => kp (fst p + dx) (snd p + dy))
      [ (0, 200);
        (-60, 180); (-80, 160); (-95, 140); (-105, 120);
        (-30, 100); (-30, 70); (-30, 50); (-30, 30);
        (0, 100); (0, 65); (0, 40); (0, 20);
        (30, 100); (30, 70); (30, 50); (30, 30);
        (60, 110); (60, 85); (60, 70); (60, 55) ].

(** A fist with the middle finger up; the thumb tip is at [thumb]. *)
Definition middle_up_hand (thumb : Keypoint) : Landmarks :=
  [ kp 0 200;
    kp (-40) 180; kp (-50) 160; kp (-40) 150; thumb;
    kp (-30) 100; kp (-30) 70; kp (-30) 80; kp (-30) 95;
    kp 0 100; kp 0 65; kp 0 40; kp 0 20;
    kp 30 100; kp 30 70; kp 30 80; kp 30 95;
    kp 60 110; kp 60 85; kp 60 95; kp 60 105 ].

Definition hand_of (side : string) (lm : Landmarks) : Hand :=
  {| keypoints := Some lm; keypoints3D := None; handedness := side |}.

(** A 478-point face whose two pupils sit [dx] to the right of the
    middle of their eye and at height [py]; the lids are at heights
    20 (top) and 30 (bottom). *)
Definition sample_face (dx py : float) : FaceLandmarks.Face :=
  {| FaceLandmarks.keypoints :=
       map (fun i =>
              if (i =? 33)%nat then kp 0 25
              else if (i =? 133)%nat then kp 10 25
              else if (i =? 159)%nat then kp 5 20
              else if (i =? 145)%nat then kp 5 30
              else if (i =? 362)%nat then kp 20 25
              else if (i =? 263)%nat then kp 30 25
              else if (i =? 386)%nat then kp 25 20
              else if (i =? 374)%nat then kp 25 30
              else if (473 <=? i)%nat then kp (25 + dx) py
              else if (468 <=? i)%nat then kp (5 + dx) py
              else kp 0 0)
           (seq 0 478) |}.

End Samples.

(** ** Shapes of the inputs *)

Module Inputs.

Local Open Scope float_scope.
Import HandPose.

(** A keypoint of a 2D landmark set carries no [z]. *)
Definition flat (k : Keypoint) : Prop := z k = None.

(** Every hand that carries 2D keypoints carries at least 21. *)
Definition complete_hands (hands : list Hand) : Prop :=
  Forall (fun h => match keypoints h with
                   | Some lm => (21 <= List.length lm)%nat
                   | None => True
                   end) hands.

(** Every hand that carries 2D keypoints carries exactly the 21 of
    the hand scheme. *)
Definition standard_hands (hands : list Hand) : Prop :=
  Forall (fun h => match keypoints h with
                   | Some lm => List.length lm = 21%nat
                   | None => True
                   end) hands.

(** The hand carries keypoints in the middle-finger shape. *)
Definition shows_middle_finger (h : Hand) : bool :=
  match keypoints h with
  | Some lm => Spec.middle_finger_shape lm
  | None => false
  end.

(** The same hand without its 3D landmarks. *)
Definition strip3D (h : Hand) : Hand :=
  {| keypoints := keypoints h; keypoints3D := None;
     handedness := handedness h |}.

Definition tagged (side : string) (h : Hand) : bool :=
  (handedness h =? side)%string.

(** The indices [detectGazeDirection] reads. *)
Definition gaze_indices : list nat :=
  [468; 469; 470; 471; 472; 473; 474; 475; 476; 477;
   33; 133; 159; 145; 362; 263; 386; 374]%nat.

Definition gaze_labels : list string :=
  ["CENTER"; "RIGHT"; "LEFT"; "UP"; "DOWN"]%string.

(** The accumulation loop of [getIrisCenter], from any start. *)
Definition iris_sums (pts : list (option Keypoint))
  (acc : result (float * float)) : result (float * float) :=
  fold_left
    (fun acc p =>
       s <- acc ;;
       px <- dot_x p ;;
       py <- dot_y p ;;
       Ret ((fst s + px)%float, (snd s + py)%float))
    pts acc.

Section Closed.

Context {M : JSMath}.

(** The two-hand rules on a pair of complete hands. *)
Definition two_hand_label (l r : Landmarks) : option label :=
  if (3 <=? Spec.close_joint_pairs l r)%nat then Some "Finger Interlocked"%string
  else if (3 <=? Spec.straight_fingers l)%nat
          && (3 <=? Spec.straight_fingers r)%nat
          && Spec.wrists_parallel l r
       then Some "Open Palm"%string
       else None.

(** The one-hand rule over a whole frame. *)
Definition one_hand_label (hands : list Hand) : option label :=
  if existsb shows_middle_finger hands then Some "Middle Finger"%string
  else None.

(** The label of a frame of standard hands, in closed form. *)
Definition frame_label (hands : list Hand) : option label :=
  match Spec.two_hand_pair hands with
  | Some (l, r) =>
      match two_hand_label l r with
      | Some g => Some g
      | None => one_hand_label hands
      end
  | None => one_hand_label hands
  end.

End Closed.

End Inputs.

(** * Properties *)

(** ** Binary64 facts, from the specification of the primitives *)

Module NumFacts.

Local Open Scope float_scope.
Import Num.

Lemma SFzero_zn s : SFzero s -> SFzn s.
Proof. destruct s; simpl; auto. Qed.

Lemma eqb_zero_SFzero f : (f =? 0) = true -> SFzero (Prim2SF f).
Proof.
  rewrite eqb_spec. unfold SFeqb.
  change (Prim2SF 0) with (S754_zero false).
  destruct (Prim2SF f) as [s|[]| |[] m e]; simpl; auto; discriminate.
Qed.

Lemma eqb_zero_zn f : (f =? 0) = true -> is_zn f.
Proof. intro H. apply SFzero_zn, eqb_zero_SFzero, H. Qed.

Lemma zn_cases f : is_zn f -> (f =? 0) = true \/ f = nan.
Proof.
  unfold is_zn. intro H.
  destruct (Prim2SF f) as [s|s| |s m e] eqn:E; simpl in H; try contradiction.
  - left. rewrite eqb_spec, E. reflexivity.
  - right. apply Prim2SF_inj. rewrite E. reflexivity.
Qed.

Lemma add_zn a b : is_zn a -> is_zn b -> is_zn (a + b).
Proof.
  unfold is_zn. rewrite add_spec.
  destruct (Prim2SF a) as [sa|sa| |sa ma ea]; simpl; try tauto;
    destruct (Prim2SF b) as [sb|sb| |sb mb eb]; simpl; try tauto.
  destruct sa, sb; simpl; tauto.
Qed.

Lemma sqrt_zn a : is_zn a -> is_zn (sqrt a).
Proof.
  unfold is_zn. rewrite sqrt_spec.
  destruct (Prim2SF a); simpl; tauto.
Qed.

Lemma mul_zn_l a b : is_zn a -> is_zn (a * b).
Proof.
  unfold is_zn. rewrite mul_spec.
  destruct (Prim2SF a) as [sa|sa| |sa ma ea]; simpl; try tauto;
    destruct (Prim2SF b); simpl; tauto.
Qed.

Lemma mul_zn_r a b : is_zn b -> is_zn (a * b).
Proof.
  unfold is_zn. rewrite mul_spec.
  destruct (Prim2SF b) as [sb|sb| |sb mb eb]; simpl; try tauto;
    destruct (Prim2SF a); simpl; tauto.
Qed.

(** [x - x] is a zero for finite [x] and [NaN] otherwise. *)
Lemma sub_diag_zn a : is_zn (a - a).
Proof.
  unfold is_zn. rewrite sub_spec.
  destruct (Prim2SF a) as [s|s| |s m e]; simpl; auto.
  - destruct s; simpl; auto.
  - destruct s; simpl; auto.
  - unfold SF64sub, SFsub. rewrite Z.sub_diag. simpl. exact I.
Qed.

Lemma div_nan_r a : a / nan = nan.
Proof.
  apply Prim2SF_inj. rewrite div_spec.
  change (Prim2SF nan) with S754_nan.
  destruct (Prim2SF a); reflexivity.
Qed.

Lemma ltb_nan_l a : (nan <? a) = false.
Proof. rewrite ltb_spec. reflexivity. Qed.

(** *** The order on Numbers *)

Lemma Pos_cc_spec m1 m2 :
  CompareSpec (m1 = m2) (m1 < m2)%positive (m2 < m1)%positive
              (Pos.compare_cont Eq m1 m2).
Proof. exact (Pos.compare_spec m1 m2). Qed.

Ltac cmp_cases :=
  repeat match goal with
  | |- context [Z.compare ?a ?b] =>
      destruct (Z.compare_spec a b); subst
  | H : context [Z.compare ?a ?b] |- _ =>
      destruct (Z.compare_spec a b); subst
  | |- context [Pos.compare_cont Eq ?a ?b] =>
      destruct (Pos_cc_spec a b); subst
  | H : context [Pos.compare_cont Eq ?a ?b] |- _ =>
      destruct (Pos_cc_spec a b); subst
  end; simpl in *; try congruence; try lia.

Lemma SFcompare_lt_le_trans a b c :
  SFcompare a b = Some Lt ->
  (SFcompare b c = Some Lt \/ SFcompare b c = Some Eq) ->
  SFcompare a c = Some Lt.
Proof.
  destruct a as [sa|sa| |sa ma ea], b as [sb|sb| |sb mb eb],
    c as [sc|sc| |sc mc ec]; simpl; intros H1 [H2|H2];
    try discriminate; try reflexivity;
    repeat match goal with s : bool |- _ => destruct s end;
    simpl in *; try discriminate; try reflexivity;
    injection H1 as H1; injection H2 as H2; f_equal; cmp_cases.
Qed.

Lemma SFcompare_le_antisym a b :
  (SFcompare a b = Some Lt \/ SFcompare a b = Some Eq) ->
  SFcompare b a <> Some Lt.
Proof.
  destruct a as [sa|sa| |sa ma ea], b as [sb|sb| |sb mb eb];
    simpl; intros [H|H]; try discriminate;
    repeat match goal with s : bool |- _ => destruct s end;
    simpl in *; try discriminate;
    injection H as H; intro H'; injection H' as H'; cmp_cases.
Qed.

Lemma ltb_leb_trans a b c :
  (a <? b) = true -> (b <=? c) = true -> (a <? c) = true.
Proof.
  rewrite !ltb_spec, leb_spec. unfold SFltb, SFleb.
  intros H1 H2.
  rewrite (@SFcompare_lt_le_trans (Prim2SF a) (Prim2SF b) (Prim2SF c)).
  - reflexivity.
  - destruct (SFcompare (Prim2SF a) (Prim2SF b)) as [ [] | ]; congruence.
  - destruct (SFcompare (Prim2SF b) (Prim2SF c)) as [ [] | ]; auto; discriminate.
Qed.

Lemma leb_not_ltb a b : (a <=? b) = true -> (b <? a) = false.
Proof.
  rewrite ltb_spec, leb_spec. unfold SFltb, SFleb. intro H.
  assert (N : SFcompare (Prim2SF b) (Prim2SF a) <> Some Lt).
  { apply SFcompare_le_antisym.
    destruct (SFcompare (Prim2SF a) (Prim2SF b)) as [ [] | ]; auto; discriminate. }
  destruct (SFcompare (Prim2SF b) (Prim2SF a)) as [ [] | ]; congruence.
Qed.

End NumFacts.

(** ** Landmark sets of a known size *)

Lemma idx_pt (a : Landmarks) (i : nat) :
  i < List.length a -> a !! i = Some (Spec.pt a i).
Proof.
  intro H. unfold idx, Spec.pt.
  apply nth_error_nth'. exact H.
Qed.

(** Every index of a 21-point hand is defined. *)
Ltac hand_lookups lm H :=
  repeat match goal with
  | |- context [lm !! ?i] =>
      rewrite (@idx_pt lm i) by (rewrite H; repeat constructor)
  end.

(** ** Hand gestures *)

Module HandPoseFacts.

Local Open Scope float_scope.
Import Num NumFacts HandPose Spec.

Lemma checkMiddleFinger_eq (lm : Landmarks) :
  List.length lm = 21%nat ->
  checkMiddleFinger lm
  = Ret (if middle_finger_shape lm then Some "Middle Finger"%string else None).
Proof.
  intro H. unfold checkMiddleFinger, middle_finger_shape,
    tip_above_pip, tip_below_pip, gtb.
  hand_lookups lm H. simpl.
  destruct (y (pt lm 12) <? y (pt lm 10)); simpl; [|reflexivity].
  destruct (y (pt lm 6) <? y (pt lm 8)); simpl; [|reflexivity].
  destruct (y (pt lm 14) <? y (pt lm 16)); simpl; [|reflexivity].
  destruct (y (pt lm 18) <? y (pt lm 20)); reflexivity.
Qed.

(** C6.  On a 21-point hand, [checkMiddleFinger] returns
    "Middle Finger" exactly when the middle fingertip has a smaller
    [y] than its PIP joint and the index, ring and pinky fingertips
    each have a larger [y] than theirs, and [null] as soon as one of
    the four comparisons fails; the thumb landmarks (1 to 4) play no
    part: changing them leaves the result unchanged. *)
Theorem checkMiddleFinger_shape (lm : Landmarks) (Hlen : List.length lm = 21%nat) :
  (middle_finger_shape lm = true ->
     checkMiddleFinger lm = Ret (Some "Middle Finger"%string))
  /\ (middle_finger_shape lm = false -> checkMiddleFinger lm = Ret None)
  /\ (forall lm' : Landmarks,
        List.length lm' = 21%nat ->
        (forall i, ~ In i thumb_joints -> pt lm' i = pt lm i) ->
        checkMiddleFinger lm' = checkMiddleFinger lm).
Proof.
  repeat split.
  - intro E. rewrite checkMiddleFinger_eq, E by assumption. reflexivity.
  - intro E. rewrite checkMiddleFinger_eq, E by assumption. reflexivity.
  - intros lm' Hlen' Hsame.
    rewrite !checkMiddleFinger_eq by assumption.
    unfold middle_finger_shape, tip_above_pip, tip_below_pip.
    rewrite !Hsame by (unfold thumb_joints; simpl; intuition discriminate).
    reflexivity.
Qed.


(** *** Absent hands *)

(** C8.  An absent hand is reported as "no match", never as a
    fault: [isHandOpen] of an absent hand is [false], and
    [checkOpenPalm] and [checkFingerInterlocked] return [null] as
    soon as one of their two hands is absent. *)
Theorem absent_hand_no_match `{M : JSMath} (other : option Landmarks) :
  isHandOpen None = Ret false
  /\ checkOpenPalm None other = Ret None
  /\ checkOpenPalm other None = Ret None
  /\ checkFingerInterlocked None other = Ret None
  /\ checkFingerInterlocked other None = Ret None.
Proof.
  repeat split; try reflexivity; destruct other; reflexivity.
Qed.

(** *** Tolerance of the 3D colinearity test *)

(** C9.  [arePointsColinear] is monotone in its tolerance: with the
    three points fixed, a "colinear" answer at tolerance [t'] is
    still "colinear" at every tolerance [t] with [t' <= t]. *)
Theorem arePointsColinear_monotone `{M : JSMath} (p1 p2 p3 : option Keypoint) (t' t : float)
  (Hle : (t' <=? t) = true)
  (Hcol : arePointsColinear p1 p2 p3 t' = Ret true) :
  arePointsColinear p1 p2 p3 t = Ret true.
Proof.
  revert Hcol. unfold arePointsColinear.
  destruct p1 as [k1|], p2 as [k2|], p3 as [k3|]; simpl; try discriminate.
  match goal with |- context [if ?c then _ else _] => destruct c end;
    [discriminate|].
  intro Hcol. injection Hcol as Hcol.
  f_equal. eapply ltb_leb_trans; eassumption.
Qed.

(** *** Strictness of the 40 pixel threshold *)

Lemma joints_apart_inv (l r : Landmarks) (i : nat) :
  joints_apart l r i = true ->
  exists d, distance2D l !! i r !! i = Ret d /\ (d <? 40) = false.
Proof.
  unfold joints_apart.
  destruct (distance2D l !! i r !! i) as [d|]; simpl; [|discriminate].
  intro H. exists d. split; [reflexivity|].
  apply leb_not_ltb. destruct (40 <=? d); [reflexivity|discriminate].
Qed.

(** C10.  The comparison with the threshold is strict: when each of
    the five compared joint pairs is 40 pixels or more apart,
    exactly 40 included, no pair is counted and
    [checkFingerInterlocked] returns [null]. *)
Theorem checkFingerInterlocked_strict (l r : Landmarks)
  (Hapart : forall i, In i interlock_joints -> joints_apart l r i = true) :
  checkFingerInterlocked (Some l) (Some r) = Ret None.
Proof.
  assert (H3 := @joints_apart_inv l r 3 (Hapart 3%nat ltac:(simpl; tauto))).
  assert (H6 := @joints_apart_inv l r 6 (Hapart 6%nat ltac:(simpl; tauto))).
  assert (H10 := @joints_apart_inv l r 10 (Hapart 10%nat ltac:(simpl; tauto))).
  assert (H14 := @joints_apart_inv l r 14 (Hapart 14%nat ltac:(simpl; tauto))).
  assert (H18 := @joints_apart_inv l r 18 (Hapart 18%nat ltac:(simpl; tauto))).
  destruct H3 as (d3 & E3 & L3), H6 as (d6 & E6 & L6),
    H10 as (d10 & E10 & L10), H14 as (d14 & E14 & L14),
    H18 as (d18 & E18 & L18).
  unfold checkFingerInterlocked, elem. simpl.
  rewrite E3. simpl. rewrite L3, E6. simpl. rewrite L6, E10. simpl.
  rewrite L10, E14. simpl. rewrite L14, E18. simpl. rewrite L18.
  reflexivity.
Qed.


(** *** Degenerate geometry *)

(** The guard shared by the two colinearity tests: a product of
    lengths that is zero or [NaN] ends in [false]. *)
Lemma colinear_guard (n c tol : float) :
  is_zn n ->
  (if n =? 0 then Ret false else Ret (c / n <? tol)) = Ret false.
Proof.
  intro Hn. destruct (zn_cases n Hn) as [E|E].
  - rewrite E. reflexivity.
  - subst n. rewrite div_nan_r, ltb_nan_l. reflexivity.
Qed.

Lemma parallel_guard `{M : JSMath} (n d tol : float) :
  is_zn n ->
  (if n =? 0 then Ret false
   else
     Ret ((Math_acos (Math_min 1 (Math_max (-1) (d / n))) * 180 / Math_PI
           <? tol)
          || (abs (180 - Math_acos (Math_min 1 (Math_max (-1) (d / n)))
                           * 180 / Math_PI) <? tol)))
  = Ret false.
Proof.
  intro Hn. destruct (zn_cases n Hn) as [E|E].
  - rewrite E. reflexivity.
  - subst n. rewrite div_nan_r.
    change (Math_min 1 (Math_max (-1) nan)) with nan.
    rewrite Math_acos_NaN.
    change (nan * 180 / Math_PI) with nan.
    change (abs (180 - nan)) with nan.
    rewrite !ltb_nan_l. reflexivity.
Qed.

Lemma pow2_zn `{M : JSMath} (a : float) : is_zn a -> is_zn (pow2 a).
Proof.
  intro H. destruct (zn_cases a H) as [E|E].
  - rewrite (pow2_zero a E). exact I.
  - subst a. rewrite pow2_NaN. exact I.
Qed.

Lemma length3_zn_same `{M : JSMath} (p : Keypoint) : is_zn (length3 p p).
Proof.
  unfold length3.
  apply sqrt_zn; repeat apply add_zn; apply pow2_zn, sub_diag_zn.
Qed.

Lemma length2_zn_same `{M : JSMath} (p : Keypoint) : is_zn (length2 p p).
Proof.
  unfold length2.
  apply sqrt_zn; repeat apply add_zn; apply pow2_zn, sub_diag_zn.
Qed.

Lemma arePointsColinear_zn `{M : JSMath} (p1 p2 p3 : Keypoint) (tol : float) :
  is_zn (length3 p1 p2 * length3 p1 p3) ->
  arePointsColinear (Some p1) (Some p2) (Some p3) tol = Ret false.
Proof.
  intro H. unfold arePointsColinear. simpl.
  apply colinear_guard. exact H.
Qed.

Lemma arePointsColinear2D_zn `{M : JSMath} (p1 p2 p3 : Keypoint) (tol : float) :
  is_zn (length2 p1 p2 * length2 p1 p3) ->
  arePointsColinear2D (Some p1) (Some p2) (Some p3) tol = Ret false.
Proof.
  intro H. unfold arePointsColinear2D. simpl.
  apply colinear_guard. exact H.
Qed.

Lemma areLinesParallel2D_zn `{M : JSMath} (p1 p2 q1 q2 : Keypoint) (tol : float) :
  is_zn (length2 p1 p2 * length2 q1 q2) ->
  areLinesParallel2D (Some p1) (Some p2) (Some q1) (Some q2) tol = Ret false.
Proof.
  intro H. unfold areLinesParallel2D. simpl.
  apply parallel_guard. exact H.
Qed.

(** A vector whose components are all zero, of either sign, has
    length zero. *)
Lemma zero_vector_length3 `{M : JSMath} (p q : Keypoint) :
  (x q - x p =? 0) = true -> (y q - y p =? 0) = true ->
  (of_optional (z q) - of_optional (z p) =? 0) = true ->
  (length3 p q =? 0) = true.
Proof.
  intros Hx Hy Hz. unfold length3.
  rewrite (pow2_zero _ Hx), (pow2_zero _ Hy), (pow2_zero _ Hz). reflexivity.
Qed.

Lemma zero_vector_length2 `{M : JSMath} (p q : Keypoint) :
  (x q - x p =? 0) = true -> (y q - y p =? 0) = true ->
  (length2 p q =? 0) = true.
Proof.
  intros Hx Hy. unfold length2.
  rewrite (pow2_zero _ Hx), (pow2_zero _ Hy). reflexivity.
Qed.

Lemma zero_length_product (a b : float) :
  (a =? 0) = true \/ (b =? 0) = true -> is_zn (a * b).
Proof.
  intros [H|H]; [apply mul_zn_l | apply mul_zn_r]; apply eqb_zero_zn, H.
Qed.

(** C7.  Degenerate geometry is "not colinear" and "not parallel",
    never "colinear", "parallel" or a fault: when one of the two
    vectors a predicate compares has zero length, the 3D
    colinearity test, the 2D colinearity test and the 2D
    parallelism test return [false], whatever the tolerance; in
    particular when all the points coincide, with any coordinates
    at all. *)
Theorem degenerate_vectors_false `{M : JSMath} :
  (forall (p1 p2 p3 : Keypoint) (tol : float),
      (length3 p1 p2 =? 0) = true \/ (length3 p1 p3 =? 0) = true ->
      arePointsColinear (Some p1) (Some p2) (Some p3) tol = Ret false)
  /\ (forall (p1 p2 p3 : Keypoint) (tol : float),
        (length2 p1 p2 =? 0) = true \/ (length2 p1 p3 =? 0) = true ->
        arePointsColinear2D (Some p1) (Some p2) (Some p3) tol = Ret false)
  /\ (forall (p1 p2 q1 q2 : Keypoint) (tol : float),
        (length2 p1 p2 =? 0) = true \/ (length2 q1 q2 =? 0) = true ->
        areLinesParallel2D (Some p1) (Some p2) (Some q1) (Some q2) tol
        = Ret false)
  /\ (forall (p : Keypoint) (tol : float),
        arePointsColinear (Some p) (Some p) (Some p) tol = Ret false
        /\ arePointsColinear2D (Some p) (Some p) (Some p) tol = Ret false
        /\ areLinesParallel2D (Some p) (Some p) (Some p) (Some p) tol
           = Ret false).
Proof.
  split; [|split; [|split]].
  - intros p1 p2 p3 tol H.
    apply arePointsColinear_zn, zero_length_product, H.
  - intros p1 p2 p3 tol H.
    apply arePointsColinear2D_zn, zero_length_product, H.
  - intros p1 p2 q1 q2 tol H.
    apply areLinesParallel2D_zn, zero_length_product, H.
  - intros p tol. split; [|split].
    + apply arePointsColinear_zn, mul_zn_l, length3_zn_same.
    + apply arePointsColinear2D_zn, mul_zn_l, length2_zn_same.
    + apply areLinesParallel2D_zn, mul_zn_l, length2_zn_same.
Qed.


(** *** Open hands *)

Lemma arePointsColinear2D_total `{M : JSMath} (p1 p2 p3 : Keypoint) (tol : float) :
  exists b, arePointsColinear2D (Some p1) (Some p2) (Some p3) tol = Ret b.
Proof.
  unfold arePointsColinear2D. simpl.
  match goal with |- context [if ?c then _ else _] => destruct c end;
    eexists; reflexivity.
Qed.

Lemma isFingerStraight_total `{M : JSMath} (lm : Landmarks) (mcp pip dip tip : nat) (tol : float) :
  mcp < List.length lm -> pip < List.length lm ->
  dip < List.length lm -> tip < List.length lm ->
  exists b, isFingerStraight lm mcp pip dip tip tol = Ret b.
Proof.
  intros H1 H2 H3 H4. unfold isFingerStraight.
  rewrite !idx_pt by assumption.
  destruct (arePointsColinear2D_total (pt lm mcp) (pt lm pip) (pt lm tip) tol)
    as [b1 E1].
  destruct (arePointsColinear2D_total (pt lm pip) (pt lm dip) (pt lm tip) tol)
    as [b2 E2].
  rewrite E1, E2. destruct b1; eexists; reflexivity.
Qed.

Lemma isHandOpen_eq `{M : JSMath} (lm : Landmarks) :
  List.length lm = 21%nat ->
  isHandOpen (Some lm) = Ret (3 <=? straight_fingers lm)%nat.
Proof.
  intro H.
  unfold isHandOpen, straight_fingers, tested_fingers, finger_straight.
  simpl filter.
  destruct (isFingerStraight_total lm 5 6 7 8 isFingerStraight_tolerance)
    as [b1 E1]; try (rewrite H; repeat constructor).
  destruct (isFingerStraight_total lm 9 10 11 12 isFingerStraight_tolerance)
    as [b2 E2]; try (rewrite H; repeat constructor).
  destruct (isFingerStraight_total lm 13 14 15 16 isFingerStraight_tolerance)
    as [b3 E3]; try (rewrite H; repeat constructor).
  destruct (isFingerStraight_total lm 17 18 19 20 isFingerStraight_tolerance)
    as [b4 E4]; try (rewrite H; repeat constructor).
  rewrite E1, E2, E3, E4.
  destruct b1, b2, b3, b4; reflexivity.
Qed.

Lemma areLinesParallel2D_total `{M : JSMath} (p1 p2 q1 q2 : Keypoint) (tol : float) :
  exists b, areLinesParallel2D (Some p1) (Some p2) (Some q1) (Some q2) tol = Ret b.
Proof.
  unfold areLinesParallel2D. simpl.
  match goal with |- context [if ?c then _ else _] => destruct c end;
    eexists; reflexivity.
Qed.

Lemma checkOpenPalm_eq `{M : JSMath} (l r : Landmarks) :
  List.length l = 21%nat -> List.length r = 21%nat ->
  checkOpenPalm (Some l) (Some r)
  = Ret (if (3 <=? straight_fingers l)%nat && (3 <=? straight_fingers r)%nat
            && wrists_parallel l r
         then Some "Open Palm"%string else None).
Proof.
  intros Hl Hr. unfold checkOpenPalm, wrists_parallel.
  rewrite !isHandOpen_eq by assumption.
  hand_lookups l Hl. hand_lookups r Hr.
  destruct (areLinesParallel2D_total (pt l 0) (pt l 12) (pt r 0) (pt r 12) 20)
    as [b E].
  rewrite E.
  destruct (3 <=? straight_fingers l)%nat, (3 <=? straight_fingers r)%nat, b;
    reflexivity.
Qed.

(** C4.  On two 21-point hands, [checkOpenPalm] returns
    "Open Palm" if and only if both hands pass [isHandOpen] and
    the wrist-to-middle-fingertip segments of the two hands are
    parallel within 20 degrees, and returns [null] otherwise;
    [isHandOpen] holds exactly when at least 3 of the 4 tested
    fingers (index, middle, ring, pinky) are straight, so a hand
    with fewer than 3 straight fingers yields [null] however
    parallel the segments are. *)
Theorem checkOpenPalm_iff `{M : JSMath} (l r : Landmarks)
  (Hl : List.length l = 21%nat) (Hr : List.length r = 21%nat) :
  (checkOpenPalm (Some l) (Some r) = Ret (Some "Open Palm"%string)
   <-> isHandOpen (Some l) = Ret true
       /\ isHandOpen (Some r) = Ret true
       /\ areLinesParallel2D (l !! 0) (l !! 12) (r !! 0) (r !! 12) 20 = Ret true)
  /\ (checkOpenPalm (Some l) (Some r) = Ret (Some "Open Palm"%string)
      \/ checkOpenPalm (Some l) (Some r) = Ret None)
  /\ isHandOpen (Some l) = Ret (3 <=? straight_fingers l)%nat
  /\ isHandOpen (Some r) = Ret (3 <=? straight_fingers r)%nat
  /\ ((straight_fingers l < 3)%nat \/ (straight_fingers r < 3)%nat ->
      checkOpenPalm (Some l) (Some r) = Ret None).
Proof.
  pose proof (isHandOpen_eq l Hl) as El.
  pose proof (isHandOpen_eq r Hr) as Er.
  pose proof (checkOpenPalm_eq l r Hl Hr) as E.
  unfold wrists_parallel in E.
  rewrite E, El, Er. clear E El Er.
  destruct (Nat.leb_spec 3 (straight_fingers l)) as [Ll|Ll];
    destruct (Nat.leb_spec 3 (straight_fingers r)) as [Lr|Lr]; simpl;
    destruct (areLinesParallel2D (l !! 0) (l !! 12) (r !! 0) (r !! 12) 20)
      as [ [|] | ]; simpl;
    repeat split; auto; try tauto; try lia;
    try (intros; discriminate); try (intros (? & ? & ?); discriminate).
Qed.


(** *** Interlocked fingers *)

Lemma distance2D_total (p q : Keypoint) :
  exists d, distance2D (Some p) (Some q) = Ret d.
Proof. eexists. reflexivity. Qed.

Lemma checkFingerInterlocked_eq (l r : Landmarks) :
  List.length l = 21%nat -> List.length r = 21%nat ->
  checkFingerInterlocked (Some l) (Some r)
  = Ret (if (3 <=? close_joint_pairs l r)%nat
         then Some "Finger Interlocked"%string else None).
Proof.
  intros Hl Hr.
  unfold checkFingerInterlocked, close_joint_pairs, interlock_joints,
    joints_within, elem.
  simpl map. simpl List.length. simpl seq. simpl fold_left. simpl filter.
  hand_lookups l Hl. hand_lookups r Hr.
  destruct (distance2D_total (pt l 3) (pt r 3)) as [d3 E3].
  destruct (distance2D_total (pt l 6) (pt r 6)) as [d6 E6].
  destruct (distance2D_total (pt l 10) (pt r 10)) as [d10 E10].
  destruct (distance2D_total (pt l 14) (pt r 14)) as [d14 E14].
  destruct (distance2D_total (pt l 18) (pt r 18)) as [d18 E18].
  simpl nth. rewrite E3, E6, E10, E14, E18.
  cbn [bind holds].
  destruct (d3 <? 40), (d6 <? 40), (d10 <? 40), (d14 <? 40), (d18 <? 40);
    reflexivity.
Qed.

(** *** The decision order *)

Lemma detectGesture_loop_eq (hands : list Hand) :
  detectGesture_loop hands = first_label (phase2 hands).
Proof.
  induction hands as [|h rest IH]; [reflexivity|].
  unfold phase2. simpl.
  destruct (keypoints h) as [lm|]; simpl; [|exact IH].
  destruct (checkMiddleFinger lm) as [ [g|] | ]; simpl; auto.
Qed.

Lemma detectGesture_eq `{M : JSMath} (hands : list Hand) :
  detectGesture (Some hands) = spec_detectGesture hands.
Proof.
  unfold detectGesture, spec_detectGesture, phase1, two_hand_pair.
  destruct hands as [|h0 rest]; [reflexivity|].
  change (List.length (h0 :: rest) =? 0)%nat with false. cbv iota.
  destruct (2 <=? List.length (h0 :: rest))%nat;
    [|exact (detectGesture_loop_eq (h0 :: rest))].
  destruct (find (fun h => handedness h =? "Left")%string (h0 :: rest))
    as [lh|]; [|exact (detectGesture_loop_eq (h0 :: rest))].
  destruct (find (fun h => handedness h =? "Right")%string (h0 :: rest))
    as [rh|]; [|exact (detectGesture_loop_eq (h0 :: rest))].
  destruct (keypoints lh) as [llm|]; [|exact (detectGesture_loop_eq (h0 :: rest))].
  destruct (keypoints rh) as [rlm|]; [|exact (detectGesture_loop_eq (h0 :: rest))].
  rewrite <- app_comm_cons. cbn [first_label app bind].
  destruct (checkFingerInterlocked (Some llm) (Some rlm)) as [ [g|] | ];
    cbn [bind]; try reflexivity.
  destruct (checkOpenPalm (Some llm) (Some rlm)) as [ [g|] | ];
    cbn [bind]; try reflexivity.
  apply detectGesture_loop_eq.
Qed.

(** C5.  On two 21-point hands, [checkFingerInterlocked] returns
    "Finger Interlocked" if and only if at least 3 of the 5
    compared joint pairs (indices 3, 6, 10, 14, 18) are within 40
    pixels of each other, and [null] otherwise; [detectGesture]
    tests this rule before Open Palm, so when the hands of phase 1
    meet the interlocked condition the result is
    "Finger Interlocked", whether or not they also form an open
    palm. *)
Theorem checkFingerInterlocked_priority `{M : JSMath} (l r : Landmarks)
  (Hl : List.length l = 21%nat) (Hr : List.length r = 21%nat) :
  (checkFingerInterlocked (Some l) (Some r) = Ret (Some "Finger Interlocked"%string)
   <-> (3 <= close_joint_pairs l r)%nat)
  /\ ((close_joint_pairs l r < 3)%nat ->
      checkFingerInterlocked (Some l) (Some r) = Ret None)
  /\ (forall hands : list Hand,
        two_hand_pair hands = Some (l, r) ->
        (3 <= close_joint_pairs l r)%nat ->
        detectGesture (Some hands) = Ret (Some "Finger Interlocked"%string)).
Proof.
  pose proof (checkFingerInterlocked_eq l r Hl Hr) as E.
  split; [|split].
  - rewrite E. destruct (Nat.leb_spec 3 (close_joint_pairs l r)); split;
      intros; try reflexivity; try discriminate; lia.
  - intro Hlt. rewrite E.
    destruct (Nat.leb_spec 3 (close_joint_pairs l r)); [lia|reflexivity].
  - intros hands Hpair Hclose.
    rewrite detectGesture_eq. unfold spec_detectGesture, phase1.
    rewrite Hpair, <- app_comm_cons. cbn [first_label].
    rewrite E.
    destruct (Nat.leb_spec 3 (close_joint_pairs l r)); [reflexivity|lia].
Qed.


(** *** The labels a rule can return *)

Lemma checkMiddleFinger_label (lm : Landmarks) (g : label) :
  checkMiddleFinger lm = Ret (Some g) -> g = "Middle Finger"%string.
Proof.
  unfold checkMiddleFinger.
  match goal with |- context [bind ?e _] => destruct e as [ [|] | ] end;
    cbn [bind]; congruence.
Qed.

Lemma checkFingerInterlocked_label (l r : option Landmarks) (g : label) :
  checkFingerInterlocked l r = Ret (Some g) -> g = "Finger Interlocked"%string.
Proof.
  unfold checkFingerInterlocked.
  destruct l as [l|], r as [r|]; try discriminate.
  match goal with |- context [bind ?e _] => destruct e as [n|] end;
    cbn [bind]; [|discriminate].
  destruct (3 <=? n)%nat; congruence.
Qed.

Lemma checkOpenPalm_label `{M : JSMath} (l r : option Landmarks) (g : label) :
  checkOpenPalm l r = Ret (Some g) -> g = "Open Palm"%string.
Proof.
  unfold checkOpenPalm.
  destruct l as [l|], r as [r|]; try discriminate.
  match goal with |- context [bind ?e _] => destruct e as [ [|] | ] end;
    cbn [bind]; try discriminate.
  match goal with |- context [bind ?e _] => destruct e as [ [|] | ] end;
    cbn [bind]; congruence.
Qed.

Lemma first_label_from (P : label -> Prop) (rules : list (result (option label))) :
  Forall (fun r => forall g, r = Ret (Some g) -> P g) rules ->
  forall g, first_label rules = Ret (Some g) -> P g.
Proof.
  induction 1 as [|r rest Hr _ IH]; intros g; simpl; [discriminate|].
  destruct r as [ [g'|] | ]; cbn [bind]; try discriminate.
  - intro E. apply Hr. exact E.
  - apply IH.
Qed.

Lemma phase2_labels (hands : list Hand) :
  Forall (fun r => forall g, r = Ret (Some g) -> In g active_labels)
         (phase2 hands).
Proof.
  induction hands as [|h rest IH]; [constructor|].
  unfold phase2. simpl. destruct (keypoints h) as [lm|]; simpl; [|exact IH].
  constructor; [|exact IH].
  intros g E. rewrite (checkMiddleFinger_label lm g E). simpl. tauto.
Qed.

Lemma detectGesture_labels `{M : JSMath} (hands : list Hand) (g : label) :
  detectGesture (Some hands) = Ret (Some g) -> In g active_labels.
Proof.
  rewrite detectGesture_eq. unfold spec_detectGesture. revert g.
  apply (first_label_from (fun g => In g active_labels)). apply Forall_app. split; [|apply phase2_labels].
  unfold phase1. destruct (two_hand_pair hands) as [ [l r] | ]; [|constructor].
  constructor; [|constructor; [|constructor] ]; intros g' E.
  - rewrite (checkFingerInterlocked_label _ _ g' E). simpl. tauto.
  - rewrite (checkOpenPalm_label _ _ g' E). simpl. tauto.
Qed.

(** C1.  [detectGesture] scans its rules in one fixed order and
    returns the first label that fires: Finger Interlocked, then
    Open Palm, for the Left and Right hands of phase 1 (which runs
    only with two hands or more, one tagged Left and one tagged
    Right, both carrying 2D keypoints), then Middle Finger for each
    hand in the order given; when no rule fires, and on the empty
    sequence, the result is [null].  "Pointing" and "Palm Upward"
    are never returned. *)
Theorem detectGesture_rule_order `{M : JSMath} (hands : list Hand) :
  match two_hand_pair hands with
  | Some (l, r) =>
      detectGesture (Some hands)
      = first_label (checkFingerInterlocked (Some l) (Some r)
                     :: checkOpenPalm (Some l) (Some r)
                     :: phase2 hands)
  | None => detectGesture (Some hands) = first_label (phase2 hands)
  end
  /\ detectGesture (Some hands) = spec_detectGesture hands
  /\ detectGesture (Some []) = Ret None
  /\ detectGesture (Some hands) <> Ret (Some "Pointing"%string)
  /\ detectGesture (Some hands) <> Ret (Some "Palm Upward"%string)
  /\ match detectGesture (Some hands) with
     | Ret (Some g) => In g active_labels
     | _ => True
     end.
Proof.
  split; [|split; [|split; [|split; [|split] ] ] ].
  - rewrite detectGesture_eq. unfold spec_detectGesture, phase1.
    destruct (two_hand_pair hands) as [ [l r] | ]; reflexivity.
  - apply detectGesture_eq.
  - reflexivity.
  - intro E. apply detectGesture_labels in E. simpl in E.
    intuition discriminate.
  - intro E. apply detectGesture_labels in E. simpl in E.
    intuition discriminate.
  - destruct (detectGesture (Some hands)) as [ [g|] | ] eqn:E; auto.
    apply detectGesture_labels with (hands := hands). exact E.
Qed.

(** *** The theorems at work on sample hands *)

Import Samples.

Example distance2D_3_4 : distance2D (Some (kp 0 0)) (Some (kp 3 4)) = Ret 5.
Proof. reflexivity. Qed.

Example open_hand_is_open :
  isHandOpen (M := RefHost.host) (Some (open_hand 0 0)) = Ret true.
Proof. vm_compute. reflexivity. Qed.

Example open_hands_far_apart :
  detectGesture (M := RefHost.host)
    (Some [hand_of "Right" (open_hand 200 0); hand_of "Left" (open_hand 0 0)])
  = Ret (Some "Open Palm"%string).
Proof. vm_compute. reflexivity. Qed.

Example single_open_hand :
  detectGesture (M := RefHost.host) (Some [hand_of "Left" (open_hand 0 0)])
  = Ret None.
Proof. vm_compute. reflexivity. Qed.

Example incomplete_hand_raises :
  detectGesture (M := RefHost.host) (Some [hand_of "Left" [kp 0 0; kp 1 1]])
  = Throw.
Proof. vm_compute. reflexivity. Qed.

(** A fist with the middle finger up is a "Middle Finger", with the
    thumb tip here or there. *)
Lemma checkMiddleFinger_shape_witness :
  checkMiddleFinger (middle_up_hand (kp (-30) 140))
  = Ret (Some "Middle Finger"%string)
  /\ checkMiddleFinger (middle_up_hand (kp 300 (-50)))
     = checkMiddleFinger (middle_up_hand (kp (-30) 140)).
Proof.
  destruct (checkMiddleFinger_shape (middle_up_hand (kp (-30) 140)) eq_refl)
    as (Hfire & _ & Hthumb).
  split.
  - apply Hfire. vm_compute. reflexivity.
  - apply Hthumb; [reflexivity|].
    intros i Hi.
    do 5 (destruct i as [|i]; [try reflexivity; exfalso; apply Hi; simpl; tauto|]).
    reflexivity.
Defined.

(** Two open hands side by side, 200 pixels apart, are an
    "Open Palm". *)
Lemma checkOpenPalm_iff_witness :
  checkOpenPalm (M := RefHost.host)
                (Some (open_hand 0 0)) (Some (open_hand 200 0))
  = Ret (Some "Open Palm"%string).
Proof.
  apply (checkOpenPalm_iff (M := RefHost.host)
           (open_hand 0 0) (open_hand 200 0) eq_refl eq_refl).
  repeat split; vm_compute; reflexivity.
Defined.

(** Two open, parallel hands 10 pixels apart meet the conditions
    of both two-hand rules; the result is "Finger Interlocked". *)
Lemma checkFingerInterlocked_priority_witness :
  checkOpenPalm (M := RefHost.host)
                (Some (open_hand 0 0)) (Some (open_hand 10 0))
  = Ret (Some "Open Palm"%string)
  /\ detectGesture (M := RefHost.host)
       (Some [hand_of "Left" (open_hand 0 0); hand_of "Right" (open_hand 10 0)])
     = Ret (Some "Finger Interlocked"%string).
Proof.
  split; [vm_compute; reflexivity|].
  apply (checkFingerInterlocked_priority (M := RefHost.host)
           (open_hand 0 0) (open_hand 10 0) eq_refl eq_refl).
  - reflexivity.
  - vm_compute. lia.
Defined.

(** Coinciding points, and a segment of length zero next to one of
    length ten. *)
Lemma degenerate_vectors_false_witness :
  arePointsColinear (M := RefHost.host)
    (Some (kp3 1 2 3)) (Some (kp3 1 2 3)) (Some (kp3 4 5 6))
    arePointsColinear_tolerance = Ret false
  /\ arePointsColinear2D (M := RefHost.host)
       (Some (kp 1 2)) (Some (kp 4 5)) (Some (kp 1 2))
       arePointsColinear2D_tolerance = Ret false
  /\ areLinesParallel2D (M := RefHost.host)
       (Some (kp 1 2)) (Some (kp 1 2)) (Some (kp 0 0)) (Some (kp 10 0)) 20
     = Ret false.
Proof.
  destruct (degenerate_vectors_false (M := RefHost.host)) as (H3 & H2 & HL & _).
  split; [|split].
  - apply H3. left. vm_compute. reflexivity.
  - apply H2. right. vm_compute. reflexivity.
  - apply HL. left. vm_compute. reflexivity.
Defined.

(** Three nearly aligned points: colinear at tolerance 0.05, hence
    at the default 0.08. *)
Lemma arePointsColinear_monotone_witness :
  arePointsColinear (M := RefHost.host)
    (Some (kp3 0 0 0)) (Some (kp3 1 0 0)) (Some (kp3 2 0.01 0))
    arePointsColinear_tolerance = Ret true.
Proof.
  apply (arePointsColinear_monotone (M := RefHost.host)
           _ _ _ 0.05 arePointsColinear_tolerance).
  - vm_compute. reflexivity.
  - vm_compute. reflexivity.
Defined.

(** Two hands whose compared joints are all exactly 40 pixels
    apart (24 across, 32 down): nothing is counted. *)
Lemma checkFingerInterlocked_strict_witness :
  distance2D (open_hand 0 0) !! 3 (open_hand 24 32) !! 3 = Ret 40
  /\ checkFingerInterlocked (Some (open_hand 0 0)) (Some (open_hand 24 32))
     = Ret None.
Proof.
  split; [vm_compute; reflexivity|].
  apply checkFingerInterlocked_strict.
  intros i Hi. simpl in Hi.
  repeat (destruct Hi as [Hi|Hi]; [subst i; vm_compute; reflexivity|]).
  contradiction.
Defined.

End HandPoseFacts.

(** ** Gaze direction *)

Module FaceLandmarksFacts.

Local Open Scope float_scope.
Import Num NumFacts FaceLandmarks Spec.

(** Every index of a 478-point face is defined. *)
Ltac face_lookups kps H :=
  repeat match goal with
  | |- context [kps !! ?i] =>
      rewrite (idx_pt kps i) by (rewrite H; apply Nat.ltb_lt; reflexivity)
  end.

Lemma detectGazeDirection_eq (face : Face) :
  List.length (keypoints face) = 478%nat ->
  detectGazeDirection face
  = Ret (spec_gaze (relX (keypoints face)) (relY (keypoints face))).
Proof.
  intro H. unfold detectGazeDirection.
  set (kps := keypoints face) in *.
  face_lookups kps H.
  unfold getIrisCenter, lift2, dot_x, dot_y, prop.
  cbn [fold_left bind fst snd x y eye_left eye_right eye_top eye_bottom
       eye_pupil List.length].
  change (of_nat 5) with 5.
  unfold spec_gaze, relX, relY, rel, mean5, gtb.
  cbn [Nat.add].
  rewrite (andb_comm (_ <? 0.3)).
  reflexivity.
Qed.

(** C2.  On a 478-point face, [detectGazeDirection] computes [relX]
    and [relY] as the two-eye averages of the relative pupil
    position and decides by first match, in this order:
    [relX < 0.35] gives "RIGHT"; else [relX > 0.65] gives "LEFT";
    else [0 < relY < 0.3] gives "UP"; else [relY < 0] gives "DOWN";
    otherwise "CENTER".  So whenever [relX < 0.35] or
    [relX > 0.65] the label is a horizontal one, whatever [relY]
    is. *)
Theorem detectGazeDirection_order (face : Face)
  (Hlen : List.length (keypoints face) = 478%nat) :
  let rx := relX (keypoints face) in
  let ry := relY (keypoints face) in
  detectGazeDirection face
  = Ret (if rx <? 0.35 then "RIGHT"%string
         else if 0.65 <? rx then "LEFT"%string
         else if (0 <? ry) && (ry <? 0.3) then "UP"%string
         else if ry <? 0 then "DOWN"%string
         else "CENTER"%string)
  /\ ((rx <? 0.35) = true -> detectGazeDirection face = Ret "RIGHT"%string)
  /\ ((rx <? 0.35) = false -> (0.65 <? rx) = true ->
      detectGazeDirection face = Ret "LEFT"%string)
  /\ ((rx <? 0.35) = true \/ (0.65 <? rx) = true ->
      detectGazeDirection face = Ret "RIGHT"%string
      \/ detectGazeDirection face = Ret "LEFT"%string).
Proof.
  intros rx ry. rewrite (detectGazeDirection_eq face Hlen).
  unfold spec_gaze. fold rx ry.
  split; [reflexivity|].
  destruct (rx <? 0.35), (0.65 <? rx); repeat split; auto;
    intros; try discriminate; intuition discriminate.
Qed.

(** C3, as amended.  On a 478-point face whose [relX] is exactly
    0.5 and whose [relY] lies strictly between 0 and 0.3,
    [detectGazeDirection] returns "UP". *)
Theorem detectGazeDirection_up (face : Face)
  (Hlen : List.length (keypoints face) = 478%nat)
  (Hx : relX (keypoints face) = 0.5)
  (Hpos : (0 <? relY (keypoints face)) = true)
  (Hlow : (relY (keypoints face) <? 0.3) = true) :
  detectGazeDirection face = Ret "UP"%string.
Proof.
  rewrite (detectGazeDirection_eq face Hlen).
  unfold spec_gaze. rewrite Hx, Hpos, Hlow. reflexivity.
Qed.

(** *** The theorems at work on sample faces *)

Import Samples.

Example getIrisCenter_mean :
  getIrisCenter [Some (kp 0 0); Some (kp 2 0); Some (kp 1 1);
                 Some (kp 1 (-1)); Some (kp 0 2)]
  = Ret (kp 0.8 0.4).
Proof. vm_compute. reflexivity. Qed.

Example pupils_below_upper_lid_edge :
  relX (keypoints (sample_face 0 20)) = 0.5
  /\ relY (keypoints (sample_face 0 20)) = 0
  /\ detectGazeDirection (sample_face 0 20) = Ret "CENTER"%string.
Proof. repeat split; vm_compute; reflexivity. Qed.

(** Pupils far to one side and above the upper lid: the label is
    the horizontal one. *)
Lemma detectGazeDirection_order_witness :
  detectGazeDirection (sample_face (-3) 10) = Ret "RIGHT"%string.
Proof.
  apply (detectGazeDirection_order (sample_face (-3) 10)).
  - vm_compute. reflexivity.
  - vm_compute. reflexivity.
Defined.

(** Pupils centred, a little below the upper lid. *)
Lemma detectGazeDirection_up_witness :
  detectGazeDirection (sample_face 0 21.5) = Ret "UP"%string.
Proof.
  apply detectGazeDirection_up; vm_compute; reflexivity.
Defined.

(** C3 as stated fails with the pupils centred and level with the
    upper lid: [relX] is 0.5 and [relY] is 0, which is in
    [[0, 0.3)], and the label is "CENTER". *)
Lemma detectGazeDirection_up_from_zero_fails :
  ~ (forall face : Face,
        List.length (keypoints face) = 478%nat ->
        relX (keypoints face) = 0.5 ->
        (0 <=? relY (keypoints face)) = true ->
        (relY (keypoints face) <? 0.3) = true ->
        detectGazeDirection face = Ret "UP"%string).
Proof.
  intro H.
  assert (E : detectGazeDirection (sample_face 0 20) = Ret "UP"%string)
    by (apply H; vm_compute; reflexivity).
  vm_compute in E. discriminate E.
Qed.

End FaceLandmarksFacts.

(** * Further properties of the rules *)

(** ** More binary64 facts *)

Module NumMore.

Local Open Scope float_scope.
Import Num NumFacts.

(** *** NaN is absorbing *)

Lemma add_nan_l a : nan + a = nan.
Proof.
  apply Prim2SF_inj. rewrite add_spec. reflexivity.
Qed.

Lemma add_nan_r a : a + nan = nan.
Proof.
  apply Prim2SF_inj. rewrite add_spec.
  change (Prim2SF nan) with S754_nan. destruct (Prim2SF a); reflexivity.
Qed.

Lemma sub_nan_l a : nan - a = nan.
Proof.
  apply Prim2SF_inj. rewrite sub_spec. reflexivity.
Qed.

Lemma sub_nan_r a : a - nan = nan.
Proof.
  apply Prim2SF_inj. rewrite sub_spec.
  change (Prim2SF nan) with S754_nan. destruct (Prim2SF a); reflexivity.
Qed.

Lemma mul_nan_l a : nan * a = nan.
Proof.
  apply Prim2SF_inj. rewrite mul_spec. reflexivity.
Qed.

Lemma mul_nan_r a : a * nan = nan.
Proof.
  apply Prim2SF_inj. rewrite mul_spec.
  change (Prim2SF nan) with S754_nan. destruct (Prim2SF a); reflexivity.
Qed.

Lemma ltb_nan_r a : (a <? nan) = false.
Proof.
  rewrite ltb_spec. change (Prim2SF nan) with S754_nan.
  destruct (Prim2SF a); reflexivity.
Qed.

(** *** The order, continued *)

Lemma SFcompare_le_lt_trans a b c :
  (SFcompare a b = Some Lt \/ SFcompare a b = Some Eq) ->
  SFcompare b c = Some Lt ->
  SFcompare a c = Some Lt.
Proof.
  destruct a as [sa|sa| |sa ma ea], b as [sb|sb| |sb mb eb],
    c as [sc|sc| |sc mc ec]; simpl; intros [H1|H1] H2;
    try discriminate; try reflexivity;
    repeat match goal with s : bool |- _ => destruct s end;
    simpl in *; try discriminate; try reflexivity;
    injection H1 as H1; injection H2 as H2; f_equal; cmp_cases.
Qed.

Lemma leb_ltb_trans a b c :
  (a <=? b) = true -> (b <? c) = true -> (a <? c) = true.
Proof.
  rewrite !ltb_spec, leb_spec. unfold SFltb, SFleb.
  intros H1 H2.
  rewrite (SFcompare_le_lt_trans (Prim2SF a) (Prim2SF b) (Prim2SF c)).
  - reflexivity.
  - destruct (SFcompare (Prim2SF a) (Prim2SF b)) as [ [] | ]; auto; discriminate.
  - destruct (SFcompare (Prim2SF b) (Prim2SF c)) as [ [] | ]; congruence.
Qed.

Lemma ltb_leb a b : (a <? b) = true -> (a <=? b) = true.
Proof.
  rewrite ltb_spec, leb_spec. unfold SFltb, SFleb.
  destruct (SFcompare (Prim2SF a) (Prim2SF b)) as [ [] | ]; congruence.
Qed.

Lemma ltb_trans a b c :
  (a <? b) = true -> (b <? c) = true -> (a <? c) = true.
Proof.
  intros H1 H2. apply (leb_ltb_trans a b c); [apply ltb_leb, H1|exact H2].
Qed.

(** *** Commutativity *)

Lemma SFmul_comm a b : SF64mul a b = SF64mul b a.
Proof.
  unfold SF64mul, SFmul.
  destruct a as [sa|sa| |sa ma ea], b as [sb|sb| |sb mb eb];
    try reflexivity; try (rewrite xorb_comm; reflexivity).
  rewrite xorb_comm, Pos.mul_comm, Z.add_comm. reflexivity.
Qed.

Lemma mul_comm a b : a * b = b * a.
Proof.
  apply Prim2SF_inj. rewrite !mul_spec. apply SFmul_comm.
Qed.

Lemma SFadd_comm a b : SF64add a b = SF64add b a.
Proof.
  unfold SF64add, SFadd.
  destruct a as [sa|sa| |sa ma ea], b as [sb|sb| |sb mb eb];
    try reflexivity;
    try (destruct sa, sb; reflexivity).
  rewrite (Z.min_comm ea eb), Z.add_comm. reflexivity.
Qed.

Lemma add_comm a b : a + b = b + a.
Proof.
  apply Prim2SF_inj. rewrite !add_spec. apply SFadd_comm.
Qed.

(** *** Swapping the operands of a subtraction only flips the sign *)

Lemma SFabs_round_aux s s' m e l :
  SFabs (binary_round_aux prec emax s m e l)
  = SFabs (binary_round_aux prec emax s' m e l).
Proof.
  unfold binary_round_aux.
  destruct (shr_fexp prec emax m e l) as [mrs' e'].
  destruct (shr_fexp prec emax _ e' loc_Exact) as [mrs'' e''].
  destruct (shr_m mrs''); try reflexivity.
  destruct (Z.leb e'' _); reflexivity.
Qed.

Lemma SFabs_normalize_opp n e :
  SFabs (binary_normalize prec emax n e false)
  = SFabs (binary_normalize prec emax (- n) e false).
Proof.
  destruct n as [|p|p]; simpl; try reflexivity;
    unfold binary_round;
    destruct (shl_align p e _) as [mz ez]; apply SFabs_round_aux.
Qed.

Lemma SFabs_sub_swap a b : SFabs (SF64sub a b) = SFabs (SF64sub b a).
Proof.
  unfold SF64sub, SFsub.
  destruct a as [sa|sa| |sa ma ea], b as [sb|sb| |sb mb eb];
    try reflexivity;
    try (destruct sa, sb; reflexivity).
  rewrite (Z.min_comm eb ea).
  rewrite SFabs_normalize_opp. f_equal. f_equal. lia.
Qed.

Lemma abs_sub_swap a b : abs (a - b) = abs (b - a).
Proof.
  apply Prim2SF_inj. rewrite !abs_spec, !sub_spec. apply SFabs_sub_swap.
Qed.

Lemma SFmul_self_abs a b : SFabs a = SFabs b -> SF64mul a a = SF64mul b b.
Proof.
  unfold SF64mul, SFmul.
  destruct a as [sa|sa| |sa ma ea], b as [sb|sb| |sb mb eb];
    simpl; intro H; try discriminate; try reflexivity;
    try (destruct sa, sb; reflexivity).
  injection H as -> ->. destruct sa, sb; reflexivity.
Qed.

Lemma sq_sub_swap a b : (a - b) * (a - b) = (b - a) * (b - a).
Proof.
  apply Prim2SF_inj. rewrite !mul_spec, !sub_spec.
  apply SFmul_self_abs, SFabs_sub_swap.
Qed.

End NumMore.

(** ** The 3D predicates *)

Module Predicates3D.

Local Open Scope float_scope.
Import Num NumFacts NumMore HandPose Spec Inputs HandPoseFacts Samples.

Lemma triangle_guard (n c tol : float) :
  is_zn n ->
  (if n =? 0 then Ret false else Ret (gtb (c / n) tol)) = Ret false.
Proof.
  intro Hn. destruct (zn_cases n Hn) as [E|E].
  - rewrite E. reflexivity.
  - subst n. unfold gtb. rewrite div_nan_r, ltb_nan_r. reflexivity.
Qed.

Lemma arePointsTriangle_zn `{M : JSMath} (p1 p2 p3 : Keypoint) (tol : float) :
  is_zn (length3 p1 p2 * length3 p1 p3) ->
  arePointsTriangle (Some p1) (Some p2) (Some p3) tol = Ret false.
Proof.
  intro H. unfold arePointsTriangle. simpl.
  apply triangle_guard. exact H.
Qed.

(** The length of a vector with an end that lacks [z] is [NaN]. *)
Lemma length3_flat `{M : JSMath} (p q : Keypoint) :
  flat p \/ flat q -> length3 p q = nan.
Proof.
  unfold flat, length3. intros [H|H]; rewrite H; simpl of_optional;
    [rewrite sub_nan_r | rewrite sub_nan_l];
    rewrite pow2_NaN, add_nan_r; reflexivity.
Qed.

Lemma flat_product_zn `{M : JSMath} (p1 p2 p3 : Keypoint) :
  flat p1 \/ flat p2 \/ flat p3 ->
  is_zn (length3 p1 p2 * length3 p1 p3).
Proof.
  intros [H|[H|H] ].
  - apply mul_zn_l. rewrite length3_flat by auto. exact I.
  - apply mul_zn_l. rewrite length3_flat by auto. exact I.
  - apply mul_zn_r. rewrite length3_flat by auto. exact I.
Qed.

(** X1.  Without depth there is no answer: when one of the three points
    lacks [z], as the keypoints of every 2D landmark set do,
    [arePointsColinear] and [arePointsTriangle] both return [false],
    whatever the positions and the tolerance. *)
Theorem predicates3D_need_z `{M : JSMath} (p1 p2 p3 : Keypoint) (tol : float)
  (Hflat : flat p1 \/ flat p2 \/ flat p3) :
  arePointsColinear (Some p1) (Some p2) (Some p3) tol = Ret false
  /\ arePointsTriangle (Some p1) (Some p2) (Some p3) tol = Ret false.
Proof.
  split.
  - apply arePointsColinear_zn, flat_product_zn, Hflat.
  - apply arePointsTriangle_zn, flat_product_zn, Hflat.
Qed.

Lemma predicates3D_need_z_witness :
  arePointsColinear (M := RefHost.host)
    (Some (kp 0 0)) (Some (kp 1 0)) (Some (kp 2 0)) 1000 = Ret false
  /\ arePointsTriangle (M := RefHost.host)
       (Some (kp 0 0)) (Some (kp 1 0)) (Some (kp 2 0)) 1000 = Ret false.
Proof.
  apply (predicates3D_need_z (M := RefHost.host)).
  left. reflexivity.
Defined.

(** X2.  A bend needs two vectors: when one of the two vectors has zero
    length, [arePointsTriangle] returns [false], as
    [arePointsColinear] does. *)
Theorem arePointsTriangle_degenerate `{M : JSMath} (p1 p2 p3 : Keypoint)
  (tol : float)
  (Hzero : (length3 p1 p2 =? 0) = true \/ (length3 p1 p3 =? 0) = true) :
  arePointsTriangle (Some p1) (Some p2) (Some p3) tol = Ret false.
Proof.
  apply arePointsTriangle_zn, zero_length_product, Hzero.
Qed.

Lemma arePointsTriangle_degenerate_witness :
  arePointsTriangle (M := RefHost.host)
    (Some (kp3 1 2 3)) (Some (kp3 4 5 6)) (Some (kp3 1 2 3))
    arePointsTriangle_tolerance = Ret false.
Proof.
  apply (arePointsTriangle_degenerate (M := RefHost.host)).
  right. vm_compute. reflexivity.
Defined.

(** X3.  "Colinear" and "bend" exclude each other as soon as the
    tolerance of the first is not above that of the second, as with
    the defaults 0.08 and 0.15: a triple that is colinear at [tc] is
    not a bend at any [tt] with [tc <= tt]. *)
Theorem colinear_excludes_triangle `{M : JSMath} (p1 p2 p3 : option Keypoint)
  (tc tt : float)
  (Hle : (tc <=? tt) = true)
  (Hcol : arePointsColinear p1 p2 p3 tc = Ret true) :
  arePointsTriangle p1 p2 p3 tt = Ret false.
Proof.
  revert Hcol. unfold arePointsColinear, arePointsTriangle, gtb.
  destruct p1 as [k1|], p2 as [k2|], p3 as [k3|]; simpl; try discriminate.
  match goal with |- context [if ?c then _ else _] => destruct c end;
    [discriminate|].
  intro Hcol. injection Hcol as Hcol. f_equal.
  match goal with |- (tt <? ?m) = false => destruct (tt <? m) eqn:E end;
    [|reflexivity].
  pose proof (ltb_trans _ _ _ E Hcol) as Hlt.
  rewrite (leb_not_ltb _ _ Hle) in Hlt. discriminate Hlt.
Qed.

Lemma colinear_excludes_triangle_witness :
  arePointsTriangle (M := RefHost.host)
    (Some (kp3 0 0 0)) (Some (kp3 1 0 0)) (Some (kp3 2 0.01 0))
    arePointsTriangle_tolerance = Ret false.
Proof.
  apply (colinear_excludes_triangle (M := RefHost.host)
           _ _ _ arePointsColinear_tolerance arePointsTriangle_tolerance).
  - vm_compute. reflexivity.
  - vm_compute. reflexivity.
Defined.

(** X4.  [arePointsTriangle] is antitone in its tolerance: a bend at
    tolerance [t] is a bend at every smaller tolerance. *)
Theorem arePointsTriangle_antitone `{M : JSMath} (p1 p2 p3 : option Keypoint)
  (t' t : float)
  (Hle : (t' <=? t) = true)
  (Hbend : arePointsTriangle p1 p2 p3 t = Ret true) :
  arePointsTriangle p1 p2 p3 t' = Ret true.
Proof.
  revert Hbend. unfold arePointsTriangle, gtb.
  destruct p1 as [k1|], p2 as [k2|], p3 as [k3|]; simpl; try discriminate.
  match goal with |- context [if ?c then _ else _] => destruct c end;
    [discriminate|].
  intro Hbend. injection Hbend as Hbend.
  f_equal. eapply leb_ltb_trans; eassumption.
Qed.

Lemma arePointsTriangle_antitone_witness :
  arePointsTriangle (M := RefHost.host)
    (Some (kp3 0 0 0)) (Some (kp3 1 0 0)) (Some (kp3 1 1 0)) 0.1 = Ret true.
Proof.
  apply (arePointsTriangle_antitone (M := RefHost.host)
           _ _ _ 0.1 arePointsTriangle_tolerance).
  - vm_compute. reflexivity.
  - vm_compute. reflexivity.
Defined.

End Predicates3D.

(** ** Symmetries of the 2D layer *)

Module Symmetry.

Local Open Scope float_scope.
Import Num NumFacts NumMore HandPose Spec Inputs HandPoseFacts Samples.

Lemma distance2D_sym (p q : option Keypoint) :
  distance2D p q = distance2D q p.
Proof.
  unfold distance2D.
  destruct p as [a|], q as [b|]; try reflexivity.
  simpl. rewrite (sq_sub_swap (x a) (x b)), (sq_sub_swap (y a) (y b)).
  reflexivity.
Qed.

(** X5.  The distance between two joints does not depend on which one
    comes first, fault included. *)
Theorem distance2D_symmetric (p q : option Keypoint) :
  distance2D p q = distance2D q p.
Proof. apply distance2D_sym. Qed.

Lemma checkFingerInterlocked_sym (l r : option Landmarks) :
  checkFingerInterlocked l r = checkFingerInterlocked r l.
Proof.
  destruct l as [l|], r as [r|]; try reflexivity.
  unfold checkFingerInterlocked, elem.
  simpl map. simpl List.length. simpl seq. simpl fold_left. simpl nth.
  rewrite (distance2D_sym l !! 3), (distance2D_sym l !! 6),
    (distance2D_sym l !! 10), (distance2D_sym l !! 14),
    (distance2D_sym l !! 18).
  reflexivity.
Qed.

(** X6.  "Finger Interlocked" does not depend on which hand is passed as
    the left one: the two calls agree on every input, absent and
    incomplete hands included. *)
Theorem checkFingerInterlocked_symmetric (l r : option Landmarks) :
  checkFingerInterlocked l r = checkFingerInterlocked r l.
Proof. apply checkFingerInterlocked_sym. Qed.

Lemma areLinesParallel2D_sym `{M : JSMath} (p1 p2 q1 q2 : option Keypoint)
  (tol : float) :
  areLinesParallel2D p1 p2 q1 q2 tol = areLinesParallel2D q1 q2 p1 p2 tol.
Proof.
  unfold areLinesParallel2D.
  destruct p1 as [a1|], p2 as [a2|], q1 as [b1|], q2 as [b2|];
    try reflexivity.
  simpl.
  rewrite (mul_comm (x b2 - x b1) (x a2 - x a1)),
    (mul_comm (y b2 - y b1) (y a2 - y a1)).
  rewrite (mul_comm (sqrt (pow2 (x b2 - x b1) + pow2 (y b2 - y b1)))).
  reflexivity.
Qed.

(** X7.  The parallelism test does not depend on the order of its two
    segments. *)
Theorem areLinesParallel2D_symmetric `{M : JSMath}
  (p1 p2 q1 q2 : option Keypoint) (tol : float) :
  areLinesParallel2D p1 p2 q1 q2 tol = areLinesParallel2D q1 q2 p1 p2 tol.
Proof. apply areLinesParallel2D_sym. Qed.

(** X8.  The 2D colinearity test of [p2] and [p3] seen from [p1] does not
    depend on the order of [p2] and [p3]. *)
Theorem arePointsColinear2D_symmetric `{M : JSMath}
  (p1 p2 p3 : option Keypoint) (tol : float) :
  arePointsColinear2D p1 p2 p3 tol = arePointsColinear2D p1 p3 p2 tol.
Proof.
  unfold arePointsColinear2D.
  destruct p1 as [a|], p2 as [b|], p3 as [c|]; try reflexivity.
  simpl.
  rewrite (mul_comm (x c - x a) (y b - y a)),
    (mul_comm (y c - y a) (x b - x a)).
  rewrite (abs_sub_swap ((y b - y a) * (x c - x a))).
  rewrite (mul_comm (sqrt (pow2 (x c - x a) + pow2 (y c - y a)))).
  reflexivity.
Qed.

(** X9.  "Open Palm" does not depend on which of two 21-point hands is
    passed as the left one. *)
Theorem checkOpenPalm_symmetric `{M : JSMath} (l r : Landmarks)
  (Hl : List.length l = 21%nat) (Hr : List.length r = 21%nat) :
  checkOpenPalm (Some l) (Some r) = checkOpenPalm (Some r) (Some l).
Proof.
  rewrite !checkOpenPalm_eq by assumption.
  unfold wrists_parallel. rewrite (areLinesParallel2D_sym r !! 0).
  rewrite (andb_comm (3 <=? straight_fingers l)%nat). reflexivity.
Qed.

Lemma checkOpenPalm_symmetric_witness :
  checkOpenPalm (M := RefHost.host) (Some (open_hand 0 0)) (Some (open_hand 200 0))
  = checkOpenPalm (M := RefHost.host) (Some (open_hand 200 0)) (Some (open_hand 0 0)).
Proof.
  apply (checkOpenPalm_symmetric (M := RefHost.host)); reflexivity.
Defined.

End Symmetry.

(** ** Faults *)

Module Faults.

Local Open Scope float_scope.
Import Num NumFacts NumMore HandPose Spec Inputs HandPoseFacts Samples.

Lemma idx_none (a : Landmarks) (i : nat) :
  (List.length a <= i)%nat -> a !! i = None.
Proof. intro H. unfold idx. apply nth_error_None. exact H. Qed.

Lemma idx_some_lt (a : Landmarks) (i : nat) (k : Keypoint) :
  a !! i = Some k -> (i < List.length a)%nat.
Proof.
  unfold idx. intro H. apply nth_error_Some. rewrite H. discriminate.
Qed.

(** Lookups in a landmark set known to be long enough. *)
Ltac long_lookups lm H :=
  repeat match goal with
  | |- context [lm !! ?i] =>
      rewrite (idx_pt lm i) by (simpl in H |- *; lia)
  end.

(** X10.  The geometry predicates and the distance raise exactly when one
    of their points is [undefined]; degenerate, infinite or [NaN]
    coordinates never raise. *)
Theorem predicates_raise_iff_undefined `{M : JSMath}
  (p1 p2 p3 p4 : option Keypoint) (tol : float) :
  (arePointsColinear p1 p2 p3 tol = Throw
   <-> p1 = None \/ p2 = None \/ p3 = None)
  /\ (arePointsTriangle p1 p2 p3 tol = Throw
      <-> p1 = None \/ p2 = None \/ p3 = None)
  /\ (arePointsColinear2D p1 p2 p3 tol = Throw
      <-> p1 = None \/ p2 = None \/ p3 = None)
  /\ (areLinesParallel2D p1 p2 p3 p4 tol = Throw
      <-> p1 = None \/ p2 = None \/ p3 = None \/ p4 = None)
  /\ (distance2D p1 p2 = Throw <-> p1 = None \/ p2 = None).
Proof.
  unfold arePointsColinear, arePointsTriangle, arePointsColinear2D,
    areLinesParallel2D, distance2D.
  destruct p1 as [k1|], p2 as [k2|], p3 as [k3|], p4 as [k4|]; simpl;
    repeat match goal with
    | |- context [if ?c then Ret _ else Ret _] => destruct c
    end;
    repeat split; intros; try discriminate; try tauto;
    repeat match goal with
    | H : _ \/ _ |- _ => destruct H
    end; discriminate.
Qed.

Lemma arePointsColinear2D_undef3 `{M : JSMath} (p1 p2 : option Keypoint)
  (tol : float) :
  arePointsColinear2D p1 p2 None tol = Throw.
Proof. destruct p1, p2; reflexivity. Qed.

Lemma isFingerStraight_no_tip `{M : JSMath} (lm : Landmarks)
  (mcp pip dip tip : nat) (tol : float) :
  lm !! tip = None -> isFingerStraight lm mcp pip dip tip tol = Throw.
Proof.
  intro H. unfold isFingerStraight. rewrite H.
  rewrite arePointsColinear2D_undef3. reflexivity.
Qed.

Lemma isHandOpen_total `{M : JSMath} (lm : Landmarks) :
  (21 <= List.length lm)%nat -> exists b, isHandOpen (Some lm) = Ret b.
Proof.
  intro H. unfold isHandOpen.
  destruct (isFingerStraight_total lm 5 6 7 8 isFingerStraight_tolerance)
    as [b1 E1]; try lia.
  destruct (isFingerStraight_total lm 9 10 11 12 isFingerStraight_tolerance)
    as [b2 E2]; try lia.
  destruct (isFingerStraight_total lm 13 14 15 16 isFingerStraight_tolerance)
    as [b3 E3]; try lia.
  destruct (isFingerStraight_total lm 17 18 19 20 isFingerStraight_tolerance)
    as [b4 E4]; try lia.
  rewrite E1, E2, E3, E4. eexists. reflexivity.
Qed.

(** X11.  [isHandOpen] raises exactly on the hands with fewer than 21
    landmarks: all four fingers are always tested, the pinky tip
    (index 20) last. *)
Theorem isHandOpen_raises_iff `{M : JSMath} (lm : Landmarks) :
  isHandOpen (Some lm) = Throw <-> (List.length lm < 21)%nat.
Proof.
  split.
  - intro E. destruct (Nat.lt_ge_cases (List.length lm) 21) as [Hlt|Hge];
      [exact Hlt|].
    destruct (isHandOpen_total lm Hge) as [b Eb]. congruence.
  - intro Hlt. unfold isHandOpen.
    rewrite (isFingerStraight_no_tip lm 17 18 19 20) by (apply idx_none; lia).
    destruct (isFingerStraight lm 5 6 7 8 _) as [b1|]; [|reflexivity].
    destruct (isFingerStraight lm 9 10 11 12 _) as [b2|]; [|reflexivity].
    destruct (isFingerStraight lm 13 14 15 16 _) as [b3|]; reflexivity.
Qed.

Lemma distance2D_undef_l (q : option Keypoint) : distance2D None q = Throw.
Proof. reflexivity. Qed.

Lemma distance2D_undef_r (p : option Keypoint) : distance2D p None = Throw.
Proof. destruct p; reflexivity. Qed.

Lemma checkFingerInterlocked_total (l r : Landmarks) :
  (19 <= List.length l)%nat -> (19 <= List.length r)%nat ->
  exists g, checkFingerInterlocked (Some l) (Some r) = Ret g.
Proof.
  intros Hl Hr. unfold checkFingerInterlocked, elem.
  simpl map. simpl List.length. simpl seq. simpl fold_left. simpl nth.
  long_lookups l Hl. long_lookups r Hr.
  destruct (distance2D_total (pt l 3) (pt r 3)) as [d3 E3].
  destruct (distance2D_total (pt l 6) (pt r 6)) as [d6 E6].
  destruct (distance2D_total (pt l 10) (pt r 10)) as [d10 E10].
  destruct (distance2D_total (pt l 14) (pt r 14)) as [d14 E14].
  destruct (distance2D_total (pt l 18) (pt r 18)) as [d18 E18].
  rewrite E3, E6, E10, E14, E18. cbn [bind].
  match goal with |- context [if ?c then Ret _ else Ret _] => destruct c end;
    eexists; reflexivity.
Qed.

(** X12.  [checkFingerInterlocked] raises exactly when one of the two
    hands has fewer than 19 landmarks: the five joint pairs are
    always compared, joint 18 last. *)
Theorem checkFingerInterlocked_raises_iff (l r : Landmarks) :
  checkFingerInterlocked (Some l) (Some r) = Throw
  <-> (List.length l < 19)%nat \/ (List.length r < 19)%nat.
Proof.
  split.
  - intro E.
    destruct (Nat.lt_ge_cases (List.length l) 19) as [Hl|Hl]; [tauto|].
    destruct (Nat.lt_ge_cases (List.length r) 19) as [Hr|Hr]; [tauto|].
    destruct (checkFingerInterlocked_total l r Hl Hr) as [g Eg]. congruence.
  - intro H. unfold checkFingerInterlocked, elem.
    simpl map. simpl List.length. simpl seq. simpl fold_left. simpl nth.
    assert (E18 : distance2D l !! 18 r !! 18 = Throw).
    { destruct H as [H|H].
      - rewrite (idx_none l 18) by lia. apply distance2D_undef_l.
      - rewrite (idx_none r 18) by lia. apply distance2D_undef_r. }
    rewrite E18.
    destruct (distance2D l !! 3 r !! 3) as [d3|]; [|reflexivity].
    destruct (distance2D l !! 6 r !! 6) as [d6|]; [|reflexivity].
    destruct (distance2D l !! 10 r !! 10) as [d10|]; [|reflexivity].
    destruct (distance2D l !! 14 r !! 14) as [d14|]; reflexivity.
Qed.

(** X13.  [checkMiddleFinger] on an incomplete hand: with 12 landmarks or
    fewer the middle fingertip is missing and the call raises; from
    13 on, a middle finger that is not up ends the test with [null]
    before any other landmark is read. *)
Theorem checkMiddleFinger_incomplete (lm : Landmarks) :
  ((List.length lm <= 12)%nat -> checkMiddleFinger lm = Throw)
  /\ ((13 <= List.length lm)%nat ->
      (y (pt lm 12) <? y (pt lm 10)) = false ->
      checkMiddleFinger lm = Ret None).
Proof.
  split.
  - intro H. unfold checkMiddleFinger.
    rewrite (idx_none lm 12) by lia. reflexivity.
  - intros H Hdown. unfold checkMiddleFinger.
    rewrite (idx_pt lm 12), (idx_pt lm 10) by lia.
    simpl. rewrite Hdown. reflexivity.
Qed.

Lemma checkMiddleFinger_incomplete_witness :
  checkMiddleFinger (firstn 12 (middle_up_hand (kp 0 0))) = Throw
  /\ checkMiddleFinger (firstn 12 (open_hand 0 0)
                        ++ [kp 0 500]) = Ret None.
Proof.
  destruct (checkMiddleFinger_incomplete (firstn 12 (middle_up_hand (kp 0 0))))
    as [Hshort _].
  destruct (checkMiddleFinger_incomplete
              (firstn 12 (open_hand 0 0) ++ [kp 0 500])) as [_ Hlong].
  split.
  - apply Hshort. vm_compute. lia.
  - apply Hlong.
    + vm_compute. lia.
    + vm_compute. reflexivity.
Defined.

Lemma checkMiddleFinger_total (lm : Landmarks) :
  (21 <= List.length lm)%nat -> exists g, checkMiddleFinger lm = Ret g.
Proof.
  intro H. unfold checkMiddleFinger.
  long_lookups lm H. simpl.
  repeat match goal with
  | |- context [if ?c then _ else _] => destruct c; simpl
  end; eexists; reflexivity.
Qed.

Lemma checkOpenPalm_total `{M : JSMath} (l r : Landmarks) :
  (21 <= List.length l)%nat -> (21 <= List.length r)%nat ->
  exists g, checkOpenPalm (Some l) (Some r) = Ret g.
Proof.
  intros Hl Hr. unfold checkOpenPalm.
  destruct (isHandOpen_total l Hl) as [bl El].
  destruct (isHandOpen_total r Hr) as [br Er].
  rewrite El, Er.
  long_lookups l Hl. long_lookups r Hr.
  destruct (areLinesParallel2D_total (pt l 0) (pt l 12) (pt r 0) (pt r 12) 20)
    as [b E].
  rewrite E. destruct bl, br, b; eexists; reflexivity.
Qed.

Lemma first_label_total (rules : list (result (option label))) :
  Forall (fun r => exists g, r = Ret g) rules ->
  exists g, first_label rules = Ret g.
Proof.
  induction 1 as [|r rest [g Hr] _ IH]; simpl.
  - eexists. reflexivity.
  - rewrite Hr. destruct g as [g|]; cbn [bind]; [eexists; reflexivity|exact IH].
Qed.

Lemma phase2_total (hands : list Hand) :
  complete_hands hands ->
  Forall (fun r => exists g, r = Ret g) (phase2 hands).
Proof.
  induction 1 as [|h rest Hh _ IH]; [constructor|].
  unfold phase2. simpl. destruct (keypoints h) as [lm|]; simpl; [|exact IH].
  constructor; [apply checkMiddleFinger_total, Hh|exact IH].
Qed.

Lemma find_complete (hands : list Hand) (f : Hand -> bool) (h : Hand)
  (lm : Landmarks) :
  complete_hands hands -> find f hands = Some h -> keypoints h = Some lm ->
  (21 <= List.length lm)%nat.
Proof.
  intros Hc Hf Hk. apply find_some in Hf. destruct Hf as [Hin _].
  unfold complete_hands in Hc. rewrite Forall_forall in Hc.
  specialize (Hc h Hin). rewrite Hk in Hc. exact Hc.
Qed.

Lemma two_hand_pair_complete (hands : list Hand) (l r : Landmarks) :
  complete_hands hands -> two_hand_pair hands = Some (l, r) ->
  (21 <= List.length l)%nat /\ (21 <= List.length r)%nat.
Proof.
  intros Hc. unfold two_hand_pair.
  destruct (2 <=? List.length hands)%nat; [|discriminate].
  destruct (find _ hands) as [lh|] eqn:El; [|discriminate].
  destruct (find (fun h => handedness h =? "Right")%string hands) as [rh|] eqn:Er;
    [|discriminate].
  destruct (keypoints lh) as [a|] eqn:Ka; [|discriminate].
  destruct (keypoints rh) as [b|] eqn:Kb; [|discriminate].
  intro E. injection E as <- <-. split.
  - exact (find_complete hands _ lh a Hc El Ka).
  - exact (find_complete hands _ rh b Hc Er Kb).
Qed.

(** X14.  No fault on well-formed frames: when every hand that carries
    2D keypoints carries at least 21 of them, [detectGesture]
    returns, a label or [null]; hands without keypoints, unknown
    handedness tags and any coordinates are fine. *)
Theorem detectGesture_no_fault `{M : JSMath} (hands : list Hand)
  (Hcomplete : complete_hands hands) :
  exists g, detectGesture (Some hands) = Ret g.
Proof.
  rewrite detectGesture_eq. unfold spec_detectGesture.
  apply first_label_total. apply Forall_app. split;
    [|apply phase2_total, Hcomplete].
  unfold phase1. destruct (two_hand_pair hands) as [ [l r] | ] eqn:E;
    [|constructor].
  destruct (two_hand_pair_complete hands l r Hcomplete E) as [Hl Hr].
  constructor; [|constructor; [|constructor] ].
  - apply checkFingerInterlocked_total; lia.
  - apply checkOpenPalm_total; assumption.
Qed.

Lemma detectGesture_no_fault_witness :
  exists g,
    detectGesture (M := RefHost.host)
      (Some [hand_of "Left" (open_hand 0 0);
             {| keypoints := None; keypoints3D := None; handedness := "Right" |};
             hand_of "Up" (middle_up_hand (kp 0 0) ++ [kp nan infinity])])
    = Ret g.
Proof.
  apply (detectGesture_no_fault (M := RefHost.host)).
  repeat constructor; simpl; lia.
Defined.

End Faults.

(** ** Whole frames *)

Module Frames.

Local Open Scope float_scope.
Import Num NumFacts NumMore HandPose Spec Inputs HandPoseFacts Samples.
Import Symmetry Faults.

(** *** The rules left out of the decision order *)

Lemma flat_pt (lm : Landmarks) (i : nat) :
  Forall flat lm -> (i < List.length lm)%nat -> flat (pt lm i).
Proof.
  intros H Hi. rewrite Forall_forall in H. apply H.
  unfold pt. apply nth_In. exact Hi.
Qed.

Lemma arePointsColinear_flat `{M : JSMath} (lm : Landmarks) (i j k : nat)
  (tol : float) :
  Forall flat lm -> (i < List.length lm)%nat ->
  arePointsColinear (Some (pt lm i)) (Some (pt lm j)) (Some (pt lm k)) tol
  = Ret false.
Proof.
  intros H Hi. apply arePointsColinear_zn, Predicates3D.flat_product_zn.
  left. apply flat_pt; assumption.
Qed.

Lemma arePointsTriangle_flat `{M : JSMath} (lm : Landmarks) (i j k : nat)
  (tol : float) :
  Forall flat lm -> (i < List.length lm)%nat ->
  arePointsTriangle (Some (pt lm i)) (Some (pt lm j)) (Some (pt lm k)) tol
  = Ret false.
Proof.
  intros H Hi.
  apply Predicates3D.arePointsTriangle_zn, Predicates3D.flat_product_zn.
  left. apply flat_pt; assumption.
Qed.

Lemma angleWithHorizon_total `{M : JSMath} (p q : Keypoint) (thresh : float) :
  exists b, angleWithHorizon (Some p) (Some q) thresh = Ret b.
Proof. eexists. reflexivity. Qed.

(** X15.  The two rules that [detectGesture] leaves out would never fire
    on the landmarks it works on: on a set of 2D keypoints (none
    carries [z]) with at least 18 landmarks, [checkFingerPointing]
    and [checkPalmUpward] return [null], whatever the pose. *)
Theorem unused_rules_null_on_2D `{M : JSMath} (lm : Landmarks)
  (Hflat : Forall flat lm) (Hlen : (18 <= List.length lm)%nat) :
  checkFingerPointing lm = Ret None /\ checkPalmUpward lm = Ret None.
Proof.
  split.
  - unfold checkFingerPointing. long_lookups lm Hlen.
    rewrite !arePointsTriangle_flat, !arePointsColinear_flat
      by (assumption || lia).
    reflexivity.
  - unfold checkPalmUpward. long_lookups lm Hlen.
    rewrite !arePointsColinear_flat by (assumption || lia).
    destruct (angleWithHorizon_total (pt lm 0) (pt lm 5) 70) as [b1 E1].
    destruct (angleWithHorizon_total (pt lm 0) (pt lm 9) 70) as [b2 E2].
    destruct (angleWithHorizon_total (pt lm 0) (pt lm 17) 70) as [b3 E3].
    rewrite E1, E2, E3. destruct b1, b2, b3; reflexivity.
Qed.

Lemma unused_rules_null_on_2D_witness :
  checkFingerPointing (M := RefHost.host) (open_hand 0 0) = Ret None
  /\ checkPalmUpward (M := RefHost.host) (open_hand 0 0) = Ret None.
Proof.
  apply (unused_rules_null_on_2D (M := RefHost.host)).
  - repeat constructor.
  - simpl. lia.
Defined.

(** *** Frames without a Left and a Right hand *)

Lemma find_none_existsb {A : Type} (f : A -> bool) (l : list A) :
  existsb f l = false -> find f l = None.
Proof.
  induction l as [|a l IH]; simpl; [reflexivity|].
  destruct (f a); simpl; [discriminate|exact IH].
Qed.

Lemma two_hand_pair_needs_both (hands : list Hand) :
  (List.length hands < 2)%nat
  \/ existsb (tagged "Left") hands = false
  \/ existsb (tagged "Right") hands = false ->
  two_hand_pair hands = None.
Proof.
  unfold two_hand_pair. intros [H|[H|H] ].
  - destruct (Nat.leb_spec 2 (List.length hands)); [lia|reflexivity].
  - destruct (2 <=? List.length hands)%nat; [|reflexivity].
    change (fun h => (handedness h =? "Left")%string) with (tagged "Left").
    rewrite (find_none_existsb _ _ H). reflexivity.
  - destruct (2 <=? List.length hands)%nat; [|reflexivity].
    change (fun h => (handedness h =? "Right")%string) with (tagged "Right").
    rewrite (find_none_existsb _ _ H).
    destruct (find _ hands); reflexivity.
Qed.

Lemma phase2_only_middle (hands : list Hand) :
  Forall (fun r => forall g, r = Ret (Some g) -> g = "Middle Finger"%string)
         (phase2 hands).
Proof.
  induction hands as [|h rest IH]; [constructor|].
  unfold phase2. simpl. destruct (keypoints h) as [lm|]; simpl; [|exact IH].
  constructor; [|exact IH].
  intros g E. exact (checkMiddleFinger_label lm g E).
Qed.

(** X16.  The two-hand labels need a Left and a Right hand: on a frame
    with fewer than two hands, or with no hand tagged "Left", or
    with no hand tagged "Right", [detectGesture] returns neither
    "Finger Interlocked" nor "Open Palm", however the hands are
    placed. *)
Theorem two_hand_labels_need_both_tags `{M : JSMath} (hands : list Hand)
  (Hmissing : (List.length hands < 2)%nat
              \/ existsb (tagged "Left") hands = false
              \/ existsb (tagged "Right") hands = false) :
  detectGesture (Some hands) <> Ret (Some "Finger Interlocked"%string)
  /\ detectGesture (Some hands) <> Ret (Some "Open Palm"%string).
Proof.
  rewrite detectGesture_eq. unfold spec_detectGesture, phase1.
  rewrite (two_hand_pair_needs_both hands Hmissing). simpl app.
  split; intro E;
    apply (first_label_from (fun g => g = "Middle Finger"%string)
             _ (phase2_only_middle hands)) in E; discriminate E.
Qed.

Lemma two_hand_labels_need_both_tags_witness :
  detectGesture (M := RefHost.host)
    (Some [hand_of "Left" (open_hand 0 0); hand_of "Left" (open_hand 10 0)])
  <> Ret (Some "Finger Interlocked"%string)
  /\ detectGesture (M := RefHost.host)
       (Some [hand_of "Left" (open_hand 0 0); hand_of "Left" (open_hand 10 0)])
     <> Ret (Some "Open Palm"%string).
Proof.
  apply (two_hand_labels_need_both_tags (M := RefHost.host)).
  right. right. reflexivity.
Defined.

(** *** Frames of standard hands, in closed form *)

Lemma phase2_closed (hands : list Hand) :
  standard_hands hands ->
  first_label (phase2 hands) = Ret (one_hand_label hands).
Proof.
  unfold one_hand_label.
  induction 1 as [|h rest Hh _ IH]; [reflexivity|].
  unfold phase2. simpl. unfold shows_middle_finger at 1.
  destruct (keypoints h) as [lm|]; simpl; [|exact IH].
  rewrite (checkMiddleFinger_eq lm Hh).
  destruct (middle_finger_shape lm); simpl; [reflexivity|exact IH].
Qed.

Lemma find_standard (hands : list Hand) (f : Hand -> bool) (h : Hand)
  (lm : Landmarks) :
  standard_hands hands -> find f hands = Some h -> keypoints h = Some lm ->
  List.length lm = 21%nat.
Proof.
  intros Hc Hf Hk. apply find_some in Hf. destruct Hf as [Hin _].
  unfold standard_hands in Hc. rewrite Forall_forall in Hc.
  specialize (Hc h Hin). rewrite Hk in Hc. exact Hc.
Qed.

Lemma two_hand_pair_standard (hands : list Hand) (l r : Landmarks) :
  standard_hands hands -> two_hand_pair hands = Some (l, r) ->
  List.length l = 21%nat /\ List.length r = 21%nat.
Proof.
  intros Hc. unfold two_hand_pair.
  destruct (2 <=? List.length hands)%nat; [|discriminate].
  destruct (find _ hands) as [lh|] eqn:El; [|discriminate].
  destruct (find (fun h => handedness h =? "Right")%string hands) as [rh|] eqn:Er;
    [|discriminate].
  destruct (keypoints lh) as [a|] eqn:Ka; [|discriminate].
  destruct (keypoints rh) as [b|] eqn:Kb; [|discriminate].
  intro E. injection E as <- <-. split.
  - exact (find_standard hands _ lh a Hc El Ka).
  - exact (find_standard hands _ rh b Hc Er Kb).
Qed.

Lemma detectGesture_closed `{M : JSMath} (hands : list Hand) :
  standard_hands hands ->
  detectGesture (Some hands) = Ret (frame_label hands).
Proof.
  intro Hstd. rewrite detectGesture_eq.
  unfold spec_detectGesture, phase1, frame_label.
  destruct (two_hand_pair hands) as [ [l r] | ] eqn:E;
    [|exact (phase2_closed hands Hstd)].
  destruct (two_hand_pair_standard hands l r Hstd E) as [Hl Hr].
  rewrite <- !app_comm_cons. cbn [first_label app].
  rewrite (checkFingerInterlocked_eq l r Hl Hr), (checkOpenPalm_eq l r Hl Hr).
  unfold two_hand_label.
  destruct (3 <=? close_joint_pairs l r)%nat; cbn [bind]; [reflexivity|].
  destruct ((3 <=? straight_fingers l)%nat && (3 <=? straight_fingers r)%nat
            && wrists_parallel l r); cbn [bind]; [reflexivity|].
  exact (phase2_closed hands Hstd).
Qed.

(** X17.  On a frame whose hands carry the 21 landmarks of the scheme,
    [detectGesture] never raises and its label has a closed form:
    the label of the two-hand rules on the first Left and first
    Right hand if one fires; otherwise "Middle Finger" exactly when
    some hand of the frame, at any position, shows the
    middle-finger shape; otherwise [null]. *)
Theorem detectGesture_closed_form `{M : JSMath} (hands : list Hand)
  (Hstd : standard_hands hands) :
  detectGesture (Some hands) = Ret (frame_label hands)
  /\ (two_hand_pair hands = None ->
      (detectGesture (Some hands) = Ret (Some "Middle Finger"%string)
       <-> exists h, In h hands /\ shows_middle_finger h = true)).
Proof.
  pose proof (detectGesture_closed hands Hstd) as E.
  split; [exact E|].
  intro Hnone. rewrite E. unfold frame_label, one_hand_label.
  rewrite Hnone. rewrite <- existsb_exists.
  destruct (existsb shows_middle_finger hands); split;
    intros; try reflexivity; discriminate.
Qed.

Lemma detectGesture_closed_form_witness :
  detectGesture (M := RefHost.host)
    (Some [hand_of "Right" (open_hand 0 0);
           hand_of "Right" (middle_up_hand (kp 0 0))])
  = Ret (Some "Middle Finger"%string).
Proof.
  destruct (detectGesture_closed_form (M := RefHost.host)
              [hand_of "Right" (open_hand 0 0);
               hand_of "Right" (middle_up_hand (kp 0 0))]) as [_ H].
  - repeat constructor.
  - apply H; [reflexivity|].
    exists (hand_of "Right" (middle_up_hand (kp 0 0))). split.
    + simpl. tauto.
    + vm_compute. reflexivity.
Defined.

(** *** Swapping the hands *)

Lemma close_joint_pairs_sym (l r : Landmarks) :
  close_joint_pairs l r = close_joint_pairs r l.
Proof.
  unfold close_joint_pairs, interlock_joints, joints_within. simpl filter.
  rewrite (distance2D_sym l !! 3), (distance2D_sym l !! 6),
    (distance2D_sym l !! 10), (distance2D_sym l !! 14),
    (distance2D_sym l !! 18).
  reflexivity.
Qed.

Lemma two_hand_label_sym `{M : JSMath} (l r : Landmarks) :
  two_hand_label l r = two_hand_label r l.
Proof.
  unfold two_hand_label, wrists_parallel.
  rewrite (close_joint_pairs_sym l r), (areLinesParallel2D_sym l !! 0).
  rewrite (andb_comm (3 <=? straight_fingers l)%nat). reflexivity.
Qed.

(** X18.  Handedness only selects the pair: on a frame of two standard
    hands tagged "Left" and "Right", the label stays the same when
    the two tags are exchanged, and when the two hands are listed in
    the other order. *)
Theorem detectGesture_two_hands_swap `{M : JSMath} (a b : Landmarks)
  (a3 b3 : option Landmarks)
  (Ha : List.length a = 21%nat) (Hb : List.length b = 21%nat) :
  let hand side lm lm3 :=
    {| keypoints := Some lm; keypoints3D := lm3; handedness := side |} in
  detectGesture (Some [hand "Left"%string a a3; hand "Right"%string b b3])
  = detectGesture (Some [hand "Right"%string a a3; hand "Left"%string b b3])
  /\ detectGesture (Some [hand "Left"%string a a3; hand "Right"%string b b3])
     = detectGesture (Some [hand "Right"%string b b3; hand "Left"%string a a3]).
Proof.
  intro hand.
  rewrite !detectGesture_closed by (repeat constructor; assumption).
  unfold frame_label, one_hand_label, two_hand_pair. simpl.
  unfold shows_middle_finger. simpl.
  rewrite (two_hand_label_sym b a), !orb_false_r.
  rewrite (orb_comm (middle_finger_shape b)). split; reflexivity.
Qed.

Lemma detectGesture_two_hands_swap_witness :
  detectGesture (M := RefHost.host)
    (Some [hand_of "Left" (open_hand 0 0); hand_of "Right" (open_hand 200 0)])
  = detectGesture (M := RefHost.host)
      (Some [hand_of "Right" (open_hand 0 0); hand_of "Left" (open_hand 200 0)]).
Proof.
  apply (detectGesture_two_hands_swap (M := RefHost.host)
           (open_hand 0 0) (open_hand 200 0) None None eq_refl eq_refl).
Defined.

(** *** What the rules do not read *)

(** X19.  "Middle Finger" reads heights only: two 21-point hands whose
    landmarks have the same [y] get the same answer, whatever their
    [x] and [z]; mirroring the image left to right changes
    nothing. *)
Theorem checkMiddleFinger_reads_y (lm lm' : Landmarks)
  (Hlen : List.length lm = 21%nat) (Hlen' : List.length lm' = 21%nat)
  (Hy : forall i, y (pt lm' i) = y (pt lm i)) :
  checkMiddleFinger lm' = checkMiddleFinger lm.
Proof.
  rewrite !checkMiddleFinger_eq by assumption.
  unfold middle_finger_shape, tip_above_pip, tip_below_pip.
  rewrite !Hy. reflexivity.
Qed.

Lemma checkMiddleFinger_reads_y_witness :
  checkMiddleFinger
    (map (fun k => {| x := 640 - x k; y := y k; z := Some 1 |})
         (middle_up_hand (kp 0 0)))
  = checkMiddleFinger (middle_up_hand (kp 0 0)).
Proof.
  apply checkMiddleFinger_reads_y; try reflexivity.
  intro i.
  do 21 (destruct i as [|i]; [reflexivity|]).
  destruct i; reflexivity.
Defined.

Lemma find_strip (f : Hand -> bool) (hands : list Hand) :
  (forall h, f (strip3D h) = f h) ->
  find f (map strip3D hands) = option_map strip3D (find f hands).
Proof.
  intro Hf. induction hands as [|h rest IH]; [reflexivity|].
  simpl. rewrite Hf. destruct (f h); [reflexivity|exact IH].
Qed.

Lemma two_hand_pair_strip (hands : list Hand) :
  two_hand_pair (map strip3D hands) = two_hand_pair hands.
Proof.
  unfold two_hand_pair. rewrite length_map.
  rewrite !find_strip by reflexivity.
  destruct (find _ hands) as [l|];
    destruct (find (fun h => handedness h =? "Right")%string hands) as [r|];
    reflexivity.
Qed.

Lemma phase2_strip (hands : list Hand) :
  phase2 (map strip3D hands) = phase2 hands.
Proof.
  unfold phase2. induction hands as [|h rest IH]; [reflexivity|].
  simpl. rewrite IH. reflexivity.
Qed.

(** X20.  The 3D landmarks are never used: removing [keypoints3D] from
    every hand of a frame leaves the result of [detectGesture]
    unchanged, faults included. *)
Theorem detectGesture_ignores_3D `{M : JSMath} (hands : list Hand) :
  detectGesture (Some (map strip3D hands)) = detectGesture (Some hands).
Proof.
  rewrite !detectGesture_eq. unfold spec_detectGesture, phase1.
  rewrite two_hand_pair_strip, phase2_strip. reflexivity.
Qed.

End Frames.

(** ** Faces *)

Module Faces.

Local Open Scope float_scope.
Import Num NumFacts NumMore FaceLandmarks Spec Inputs FaceLandmarksFacts Samples.
Import Faults.

Lemma iris_sums_throw (pts : list (option Keypoint)) :
  iris_sums pts Throw = Throw.
Proof. induction pts as [|p pts IH]; [reflexivity|exact IH]. Qed.

Lemma iris_sums_raises_iff (pts : list (option Keypoint)) (s : float * float) :
  iris_sums pts (Ret s) = Throw <-> In None pts.
Proof.
  revert s. induction pts as [|p pts IH]; intro s.
  - simpl. split; [discriminate|tauto].
  - unfold iris_sums. simpl. destruct p as [k|]; simpl.
    + fold (iris_sums pts (Ret (fst s + x k, snd s + y k))).
      rewrite IH. split; [tauto|]. intros [H|H]; [discriminate|exact H].
    + fold (iris_sums pts Throw). rewrite iris_sums_throw. tauto.
Qed.

Lemma getIrisCenter_raises (pts : list (option Keypoint)) :
  getIrisCenter pts = Throw <-> In None pts.
Proof.
  unfold getIrisCenter. fold (iris_sums pts (Ret (0, 0))).
  rewrite <- (iris_sums_raises_iff pts (0, 0)).
  destruct (iris_sums pts (Ret (0, 0))); simpl; split;
    intros; try discriminate; reflexivity.
Qed.

(** X21.  [getIrisCenter] raises exactly when one of the iris points is
    [undefined]; an empty cluster does not raise, it yields the
    centre [(NaN, NaN)]. *)
Theorem getIrisCenter_raises_iff (pts : list (option Keypoint)) :
  (getIrisCenter pts = Throw <-> In None pts)
  /\ getIrisCenter [] = Ret {| x := nan; y := nan; z := None |}.
Proof.
  split; [apply getIrisCenter_raises|reflexivity].
Qed.

(** Every index of a face with at least 478 points is defined. *)
Ltac long_face_lookups kps H :=
  repeat match goal with
  | |- context [kps !! ?i] =>
      rewrite (idx_pt kps i)
        by (apply (Nat.lt_le_trans _ 478); [apply Nat.ltb_lt; reflexivity|exact H])
  end.

Lemma detectGazeDirection_eq_long (face : Face) :
  (478 <= List.length (keypoints face))%nat ->
  detectGazeDirection face
  = Ret (spec_gaze (relX (keypoints face)) (relY (keypoints face))).
Proof.
  intro H. unfold detectGazeDirection.
  set (kps := keypoints face) in *.
  long_face_lookups kps H.
  unfold getIrisCenter, lift2, dot_x, dot_y, prop.
  cbn [fold_left bind fst snd x y eye_left eye_right eye_top eye_bottom
       eye_pupil List.length].
  change (of_nat 5) with 5.
  unfold spec_gaze, relX, relY, rel, mean5, gtb.
  cbn [Nat.add].
  rewrite (andb_comm (_ <? 0.3)).
  reflexivity.
Qed.

(** X22.  [detectGazeDirection] needs the iris landmarks: it raises
    exactly on the faces with fewer than 478 keypoints, such as the
    468-point mesh delivered without iris refinement. *)
Theorem detectGazeDirection_raises_iff (face : Face) :
  detectGazeDirection face = Throw
  <-> (List.length (keypoints face) < 478)%nat.
Proof.
  split.
  - intro E.
    destruct (Nat.lt_ge_cases (List.length (keypoints face)) 478) as [Hlt|Hge];
      [exact Hlt|].
    rewrite (detectGazeDirection_eq_long face Hge) in E. discriminate E.
  - intro Hlt. unfold detectGazeDirection.
    set (kps := keypoints face) in *.
    assert (Er : getIrisCenter
                   [kps !! 473; kps !! 474; kps !! 475; kps !! 476; kps !! 477]
                 = Throw).
    { apply getIrisCenter_raises. rewrite (idx_none kps 477) by lia.
      simpl. tauto. }
    rewrite Er. clear Er.
    destruct (getIrisCenter
                [kps !! 468; kps !! 469; kps !! 470; kps !! 471; kps !! 472]);
      reflexivity.
Qed.

(** X23.  The gaze vocabulary is closed: whatever the face,
    [detectGazeDirection] returns one of "CENTER", "RIGHT", "LEFT",
    "UP" and "DOWN", or raises. *)
Theorem detectGazeDirection_labels (face : Face) :
  match detectGazeDirection face with
  | Ret g => In g gaze_labels
  | Throw => True
  end.
Proof.
  destruct (Nat.lt_ge_cases (List.length (keypoints face)) 478) as [Hlt|Hge].
  - apply detectGazeDirection_raises_iff in Hlt. rewrite Hlt. exact I.
  - rewrite (detectGazeDirection_eq_long face Hge). unfold spec_gaze.
    repeat match goal with
    | |- context [if ?c then _ else _] => destruct c
    end; simpl; tauto.
Qed.

(** X24.  Only 18 landmarks matter: two faces with at least 478 points
    that agree on the two iris clusters and on the eight eye
    boundary points get the same gaze. *)
Theorem detectGazeDirection_reads (f1 f2 : Face)
  (H1 : (478 <= List.length (keypoints f1))%nat)
  (H2 : (478 <= List.length (keypoints f2))%nat)
  (Hagree : forall i, In i gaze_indices ->
                      pt (keypoints f1) i = pt (keypoints f2) i) :
  detectGazeDirection f1 = detectGazeDirection f2.
Proof.
  rewrite (detectGazeDirection_eq_long f1 H1), (detectGazeDirection_eq_long f2 H2).
  unfold relX, relY, mean5. cbn [Nat.add].
  rewrite !Hagree by (unfold gaze_indices; simpl; tauto).
  reflexivity.
Qed.

Lemma detectGazeDirection_reads_witness :
  detectGazeDirection
    {| keypoints := kp 7 7 :: tl (keypoints (sample_face 0 21.5)) ++ [kp 1 1] |}
  = detectGazeDirection (sample_face 0 21.5).
Proof.
  apply detectGazeDirection_reads.
  - vm_compute. repeat constructor.
  - vm_compute. repeat constructor.
  - intros i Hi. unfold gaze_indices in Hi. simpl in Hi.
    repeat (destruct Hi as [Hi|Hi]; [subst i; vm_compute; reflexivity|]).
    contradiction.
Defined.

End Faces.
